(** * Vacation climate API: date validation and range queries

    A shallow embedding of [Vacation_Climate_Analysis/app.py]: the
    calendar validator [validate_date], the helpers
    [date_string_to_nums], [year_from_most_recent_data],
    [most_active_station] and [calculate_range_metrics], and the Flask
    routes that call them.

    Conventions of the model.
    - Python [str] values are Rocq strings, one character per code point
      below 256.  On that range the regex class [\d] is exactly '0'..'9'.
    - Python [int] is [Z].  A float64 column value is the rational it
      stands for ([Qc]); comparing, and so taking a minimum or a maximum,
      is exact on those.  The mean is not: its float64 value depends on how
      the library adds the values up, and it is the parameter [float_mean].
    - An exception is an [outcome] built with [Raise]; code that talks to
      the database runs in the monad [py], whose state holds the tables and
      a journal of the session and query events.
    - SQLite compares TEXT values byte by byte, which on these strings is
      [String.compare]. *)

From Stdlib Require Import ZArith QArith Qcanon Ascii String List Bool Lia.
From Stdlib Require Import Sorted.
From stdpp Require Import base option list gmap strings pretty.

#[local] Set Warnings "-clear-no-such-hyp".

Local Open Scope string_scope.
Local Open Scope Z_scope.

(** ** Exceptions and outcomes *)

Inductive exn : Type :=
| Exception (msg : string)
| ValueError
| TypeError
| IndexError
| KeyError
| OverflowError.

Inductive outcome (A : Type) : Type :=
| Ok (a : A)
| Raise (e : exn).

Arguments Ok {A} a.
Arguments Raise {A} e.

Definition obind {A B : Type} (o : outcome A) (k : A -> outcome B) : outcome B :=
  match o with
  | Ok a => k a
  | Raise e => Raise e
  end.

Declare Scope outcome_scope.
Delimit Scope outcome_scope with outcome.
Notation "'try!' x := e 'in' k" := (obind e (fun x => k))
  (at level 10, x name, e at level 100, k at level 200) : outcome_scope.
Local Open Scope outcome_scope.

Fixpoint omapM {A B : Type} (f : A -> outcome B) (l : list A) : outcome (list B) :=
  match l with
  | [] => Ok []
  | x :: l' => try! y := f x in try! ys := omapM f l' in Ok (y :: ys)
  end.

(** ** Characters and the Python string helpers used by the source *)

Definition code (c : ascii) : Z := Z.of_N (N_of_ascii c).

(** [\d] on code points below 256. *)
Definition is_digit (c : ascii) : bool := (48 <=? code c) && (code c <=? 57).

Definition digit_val (c : ascii) : Z := code c - 48.

(** White space that [int()] skips around the number: \t \n \v \f \r and
    the space, and the two spaces above 127, NEL and the no-break space. *)
Definition is_space (c : ascii) : bool :=
  ((9 <=? code c) && (code c <=? 13)) || (code c =? 32)
  || (code c =? 133) || (code c =? 160).

Fixpoint lstrip (s : string) : string :=
  match s with
  | String c s' => if is_space c then lstrip s' else s
  | EmptyString => EmptyString
  end.

Fixpoint rstrip (s : string) : string :=
  match s with
  | String c s' =>
      match rstrip s' with
      | EmptyString => if is_space c then EmptyString else String c EmptyString
      | t => String c t
      end
  | EmptyString => EmptyString
  end.

Definition strip (s : string) : string := rstrip (lstrip s).

(** [str.split(sep)] for a one-character separator: every occurrence cuts,
    empty pieces are kept. *)
Fixpoint split (sep : ascii) (s : string) : list string :=
  match s with
  | EmptyString => [EmptyString]
  | String c s' =>
      if Ascii.eqb c sep then EmptyString :: split sep s'
      else match split sep s' with
           | p :: ps => String c p :: ps
           | [] => [String c EmptyString]
           end
  end.

(** Decimal digits with single underscores between them, as [int()]
    accepts them; [seen] says that the previous character was a digit. *)
Fixpoint int_digits (acc : Z) (seen : bool) (s : string) : option Z :=
  match s with
  | EmptyString => if seen then Some acc else None
  | String c s' =>
      if is_digit c then int_digits (10 * acc + digit_val c) true s'
      else if Ascii.eqb c "_" && seen then int_digits acc false s'
      else None
  end.

(** [int(s)] in base 10: surrounding white space, an optional sign, digits.
    The interpreter's limit on the number of digits is not modelled. *)
Definition int (s : string) : outcome Z :=
  let body :=
    match strip s with
    | String "+" r => int_digits 0 false r
    | String "-" r => Z.opp <$> int_digits 0 false r
    | r => int_digits 0 false r
    end in
  match body with
  | Some z => Ok z
  | None => Raise ValueError
  end.

(** [date_string_to_nums]: [[int(val) for val in date_string.split('-')]]. *)
Definition date_string_to_nums (date_string : string) : outcome (list Z) :=
  omapM int (split "-" date_string).

(** Constant subscripts [l[i]] of a Python list. *)
Definition index {A : Type} (l : list A) (i : nat) : outcome A :=
  match l !! i with
  | Some x => Ok x
  | None => Raise IndexError
  end.

(** [d[k]] on a Python dict. *)
Definition getitem {V : Type} (d : gmap string V) (k : string) : outcome V :=
  match d !! k with
  | Some v => Ok v
  | None => Raise KeyError
  end.

(** ** The part of [datetime] that the source uses *)

Record datetime : Type := mk_datetime {
  year : Z; month : Z; day : Z;
  hour : Z; minute : Z; second : Z; microsecond : Z
}.

Definition is_leap (y : Z) : bool :=
  (y mod 4 =? 0) && (negb (y mod 100 =? 0) || (y mod 400 =? 0)).

Definition DAYS_IN_MONTH : list Z :=
  [-1; 31; 28; 31; 30; 31; 30; 31; 31; 30; 31; 30; 31].

Definition DAYS_BEFORE_MONTH : list Z :=
  [-1; 0; 31; 59; 90; 120; 151; 181; 212; 243; 273; 304; 334].

Definition days_in_month (y m : Z) : Z :=
  if (m =? 2) && is_leap y then 29 else nth (Z.to_nat m) DAYS_IN_MONTH 0.

Definition days_before_year (y : Z) : Z :=
  (y - 1) * 365 + (y - 1) / 4 - (y - 1) / 100 + (y - 1) / 400.

Definition days_before_month (y m : Z) : Z :=
  nth (Z.to_nat m) DAYS_BEFORE_MONTH 0 + (if (2 <? m) && is_leap y then 1 else 0).

Definition ymd2ord (y m d : Z) : Z :=
  days_before_year y + days_before_month y m + d.

Definition DI400Y : Z := 146097.
Definition DI100Y : Z := 36524.
Definition DI4Y : Z := 1461.

(** The inverse of [ymd2ord], by 400-, 100-, 4- and 1-year cycles. *)
Definition ord2ymd (ordinal : Z) : Z * Z * Z :=
  let n := ordinal - 1 in
  let n400 := n / DI400Y in
  let n := n mod DI400Y in
  let y := n400 * 400 + 1 in
  let n100 := n / DI100Y in
  let n := n mod DI100Y in
  let n4 := n / DI4Y in
  let n := n mod DI4Y in
  let n1 := n / 365 in
  let n := n mod 365 in
  let y := y + n100 * 100 + n4 * 4 + n1 in
  if (n1 =? 4) || (n100 =? 4) then (y - 1, 12, 31)
  else
    let leapyear := (n1 =? 3) && (negb (n4 =? 24) || (n100 =? 3)) in
    let m := Z.shiftr (n + 50) 5 in
    let preceding :=
      nth (Z.to_nat m) DAYS_BEFORE_MONTH 0
      + (if (2 <? m) && leapyear then 1 else 0) in
    if preceding >? n then
      let m := m - 1 in
      let preceding :=
        preceding - (nth (Z.to_nat m) DAYS_IN_MONTH 0
                     + (if (m =? 2) && leapyear then 1 else 0)) in
      (y, m, n - preceding + 1)
    else (y, m, n - preceding + 1).

Definition c_int (z : Z) : bool := (-2147483648 <=? z) && (z <=? 2147483647).

Definition between (lo z hi : Z) : bool := (lo <=? z) && (z <=? hi).

(** [datetime] applied to an unpacked list of integers: year, month and day are
    required, hour, minute, second and microsecond default to 0, and an
    eighth positional argument would be the time zone, which an integer is
    not.  More than nine arguments are refused at once; otherwise the
    first seven are converted to C ints in the order they come, and only
    then a missing argument or a ninth one is noticed.  The range checks
    come after that, the time zone last. *)
Definition datetime_new (args : list Z) : outcome datetime :=
  if (9 <? length args)%nat then Raise TypeError
  else if negb (forallb c_int (take 7 args)) then Raise OverflowError
  else if (length args <? 3)%nat || (length args =? 9)%nat then Raise TypeError
  else
    let arg i := nth i args 0 in
    if negb (between 1 (arg 0%nat) 9999) then Raise ValueError
    else if negb (between 1 (arg 1%nat) 12) then Raise ValueError
    else if negb (between 1 (arg 2%nat) (days_in_month (arg 0%nat) (arg 1%nat)))
    then Raise ValueError
    else if negb (between 0 (arg 3%nat) 23) then Raise ValueError
    else if negb (between 0 (arg 4%nat) 59) then Raise ValueError
    else if negb (between 0 (arg 5%nat) 59) then Raise ValueError
    else if negb (between 0 (arg 6%nat) 999999) then Raise ValueError
    else if (length args =? 8)%nat then Raise TypeError
    else Ok (mk_datetime (arg 0%nat) (arg 1%nat) (arg 2%nat) (arg 3%nat)
                         (arg 4%nat) (arg 5%nat) (arg 6%nat)).

(** [d - timedelta(days=n)]: the date moves, the time of day stays. *)
Definition sub_days (d : datetime) (n : Z) : outcome datetime :=
  let ordinal := ymd2ord (year d) (month d) (day d) - n in
  if between 1 ordinal 3652059 then
    let '(y, m, dd) := ord2ymd ordinal in
    Ok (mk_datetime y m dd (hour d) (minute d) (second d) (microsecond d))
  else Raise OverflowError.

(** Comparison of two naive datetimes: field by field. *)
Fixpoint lex_compare (a b : list Z) : comparison :=
  match a, b with
  | x :: a', y :: b' =>
      match x ?= y with
      | Eq => lex_compare a' b'
      | c => c
      end
  | [], [] => Eq
  | [], _ :: _ => Lt
  | _ :: _, [] => Gt
  end.

Definition fields (d : datetime) : list Z :=
  [year d; month d; day d; hour d; minute d; second d; microsecond d].

Definition datetime_gt (a b : datetime) : bool :=
  match lex_compare (fields a) (fields b) with
  | Gt => true
  | _ => false
  end.

(** [str(n)] padded with zeros on the left to [w] characters. *)
Definition zpad (w : nat) (n : Z) : string :=
  let s := pretty n in
  string_of_list_ascii (repeat "0"%char (w - String.length s)) +:+ s.

(** The text SQLAlchemy's SQLite dialect binds for a datetime parameter. *)
Definition datetime_text (d : datetime) : string :=
  zpad 4 (year d) +:+ "-" +:+ zpad 2 (month d) +:+ "-" +:+ zpad 2 (day d)
  +:+ " " +:+ zpad 2 (hour d) +:+ ":" +:+ zpad 2 (minute d) +:+ ":"
  +:+ zpad 2 (second d) +:+ "." +:+ zpad 6 (microsecond d).

(** ** [validate_date] *)

Inductive pyvalue : Type :=
| PyStr (s : string)
| PyInt (z : Z).

Inductive atom : Type :=
| Digit
| Lit (c : ascii).

Definition atom_matches (a : atom) (c : ascii) : bool :=
  match a with
  | Digit => is_digit c
  | Lit c' => Ascii.eqb c c'
  end.

(** [re.match(p, s)]: the pattern has to match at the start of [s]; what
    follows the match is not looked at. *)
Fixpoint re_match (p : list atom) (s : string) : bool :=
  match p with
  | [] => true
  | a :: p' =>
      match s with
      | EmptyString => false
      | String c s' => atom_matches a c && re_match p' s'
      end
  end.

(** [r"\d{4}-\d{2}-\d{2}"] *)
Definition date_regex : list atom :=
  repeat Digit 4 ++ [Lit "-"] ++ repeat Digit 2 ++ [Lit "-"] ++ repeat Digit 2.

Definition msg_not_string : string :=
  "That date was not a string - try again with a string form date.".
Definition msg_format : string :=
  "That string date was not of the correct format - try again with a string in the YYYY-MM-DD format.".
Definition msg_month : string := "That month does not exist".
Definition msg_day : string := "That is not a valid day".
Definition msg_range : string :=
  "That was not a valid date range - the end date was earlier than the start date.".

Definition month_lengths : gmap string Z :=
  list_to_map
    [("1", 31); ("2", 28); ("3", 31); ("4", 30); ("5", 31); ("6", 30);
     ("7", 31); ("8", 31); ("9", 30); ("10", 31); ("11", 30); ("12", 31)].

Definition validate_date (date : pyvalue) : outcome datetime :=
  match date with
  | PyInt _ => Raise (Exception msg_not_string)
  | PyStr date =>
      if negb (re_match date_regex date) then Raise (Exception msg_format)
      else
        try! date_list := date_string_to_nums date in
        try! y := index date_list 0 in
        let month_lengths :=
          if (y mod 4 =? 0)
             && (((y mod 100 =? 0) && (y mod 400 =? 0)) || negb (y mod 100 =? 0))
          then <["2" := 29]> month_lengths
          else month_lengths in
        try! m := index date_list 1 in
        if (m >? 12) || (m <? 1) then Raise (Exception msg_month)
        else
          try! d := index date_list 2 in
          try! len := getitem month_lengths (pretty m) in
          if (d >? len) || (d <? 1) then Raise (Exception msg_day)
          else datetime_new date_list
  end.

(** ** The measurement table and the queries the source builds *)

Record Measurement : Type := mk_measurement {
  station : string;
  date : string;
  prcp : option Qc;
  tobs : option Qc
}.

(** A value bound to a query parameter, and the text SQLite receives. *)
Inductive bindparam : Type :=
| BindStr (s : string)
| BindDatetime (d : datetime).

Definition bind_text (b : bindparam) : string :=
  match b with
  | BindStr s => s
  | BindDatetime d => datetime_text d
  end.

Inductive criterion : Type :=
| StationEq (s : string)
| DateGe (b : bindparam)
| DateLe (b : bindparam).

(** [session.query(Measurement.station, Measurement.date, Measurement.prcp,
    Measurement.tobs)] refined by [filter] and [order_by]. *)
Record query : Type := mk_query {
  criteria : list criterion;
  order_desc_date : bool
}.

Definition query_measurement : query := mk_query [] false.

Definition filter_by (q : query) (c : criterion) : query :=
  mk_query (criteria q ++ [c]) (order_desc_date q).

Definition order_by_desc_date (q : query) : query :=
  mk_query (criteria q) true.

Definition holds (r : Measurement) (c : criterion) : bool :=
  match c with
  | StationEq s => String.eqb (station r) s
  | DateGe b => String.leb (bind_text b) (date r)
  | DateLe b => String.leb (date r) (bind_text b)
  end.

(** Descending order on the date text.  SQLite leaves the order of rows
    with equal keys open; the model keeps them in table order. *)
Fixpoint insert_desc (r : Measurement) (l : list Measurement) : list Measurement :=
  match l with
  | [] => [r]
  | x :: l' =>
      if String.leb (date x) (date r) then r :: l else x :: insert_desc r l'
  end.

Definition sort_desc_date (l : list Measurement) : list Measurement :=
  foldr insert_desc [] l.

Definition select (q : query) (rows : list Measurement) : list Measurement :=
  let kept := List.filter (fun r => forallb (holds r) (criteria q)) rows in
  if order_desc_date q then sort_desc_date kept else kept.

(** [query(Measurement.station, func.count(Measurement.date))
    .group_by(Measurement.station).order_by(desc(func.count(...)))]. *)
Fixpoint bump (s : string) (counts : list (string * Z)) : list (string * Z) :=
  match counts with
  | [] => [(s, 1)]
  | (s', n) :: counts' =>
      if String.eqb s s' then (s', n + 1) :: counts'
      else (s', n) :: bump s counts'
  end.

Definition group_count (rows : list Measurement) : list (string * Z) :=
  foldl (fun counts r => bump (station r) counts) [] rows.

(** Descending order on the count.  SQL leaves the order of stations with
    equal counts open; SQLite gives them in descending order of the station
    text, and so does the model. *)
Definition count_before (p x : string * Z) : bool :=
  (snd x <? snd p) || ((snd x =? snd p) && String.leb (fst x) (fst p)).

Fixpoint insert_count (p : string * Z) (l : list (string * Z)) : list (string * Z) :=
  match l with
  | [] => [p]
  | x :: l' => if count_before p x then p :: l else x :: insert_count p l'
  end.

Definition sort_desc_count (l : list (string * Z)) : list (string * Z) :=
  foldr insert_count [] l.

Definition stations_by_count (rows : list Measurement) : list (string * Z) :=
  sort_desc_count (group_count rows).

(** ** The monad of code that holds a session *)

Inductive statement : Type :=
| SelectAll (q : query)
| SelectFirst (q : query)
| SelectStationCounts.

Inductive event : Type :=
| SessionOpened
| Executed (st : statement)
| SessionClosed.

Record world : Type := mk_world {
  tables : list Measurement;
  journal : list event
}.

Definition py (A : Type) : Type := world -> outcome A * world.

Definition ret {A : Type} (a : A) : py A := fun w => (Ok a, w).

Definition lift {A : Type} (o : outcome A) : py A := fun w => (o, w).

Definition bind {A B : Type} (m : py A) (k : A -> py B) : py B :=
  fun w =>
    match m w with
    | (Ok a, w') => k a w'
    | (Raise e, w') => (Raise e, w')
    end.

Declare Scope py_scope.
Delimit Scope py_scope with py.
Notation "'do!' x := e 'in' k" := (bind e (fun x => k))
  (at level 10, x name, e at level 100, k at level 200) : py_scope.
Notation "e ';;' k" := (bind e (fun _ => k))
  (at level 100, k at level 200, right associativity) : py_scope.
Local Open Scope py_scope.

Definition record (e : event) : py unit :=
  fun w => (Ok tt, mk_world (tables w) (journal w ++ [e])).

(** [Session(engine)] and [session.close()]. *)
Definition Session : py unit := record SessionOpened.
Definition close : py unit := record SessionClosed.

(** [q.all()], [q.first()] and the grouped count query followed by [.all()]. *)
Definition all (q : query) : py (list Measurement) :=
  fun w => (Ok (select q (tables w)),
            mk_world (tables w) (journal w ++ [Executed (SelectAll q)])).

Definition first (q : query) : py (option Measurement) :=
  fun w => (Ok (head (select q (tables w))),
            mk_world (tables w) (journal w ++ [Executed (SelectFirst q)])).

Definition all_station_counts : py (list (string * Z)) :=
  fun w => (Ok (stations_by_count (tables w)),
            mk_world (tables w) (journal w ++ [Executed SelectStationCounts])).

(** [row[1]] where [row] is what [first()] gave: [None] has no subscript. *)
Definition row_date (row : option Measurement) : outcome string :=
  match row with
  | Some r => Ok (date r)
  | None => Raise TypeError
  end.

(** ** The helpers of the source *)

Definition year_from_most_recent_data (station : option string)
  : py (list Measurement) :=
  let year_data := order_by_desc_date query_measurement in
  let year_data :=
    match station with
    | None => year_data
    | Some s => filter_by year_data (StationEq s)
    end in
  do! row := first year_data in
  do! most_recent_measurement := lift (row_date row) in
  do! date_num_list := lift (date_string_to_nums most_recent_measurement) in
  do! most_recent := lift (datetime_new date_num_list) in
  do! year_from_most_recent := lift (sub_days most_recent 365) in
  all (filter_by year_data (DateGe (BindDatetime year_from_most_recent))).

Definition most_active_station : py string :=
  do! stations_by_rows := all_station_counts in
  do! row := lift (index stations_by_rows 0) in
  ret (fst row).

(** Pandas: a float result, [NaN] for a reduction over nothing, an
    infinity when a sum goes beyond the float64 range. *)
Inductive pyfloat : Type :=
| NaN
| Flt (q : Qc)
| PosInf
| NegInf.

Definition notnull {A : Type} (o : option A) : bool :=
  match o with
  | Some _ => true
  | None => false
  end.

(** [DataFrame.dropna()]: a row goes when any of its columns is null.  The
    station and date columns hold strings; the two float columns can be
    null. *)
Definition dropna (df : list Measurement) : list Measurement :=
  List.filter (fun r => notnull (prcp r) && notnull (tobs r)) df.

(** The values a reduction sees: nulls of the column are skipped. *)
Definition valid (col : list (option Qc)) : list Qc := omap id col.

Definition Qc_leb (a b : Qc) : bool := Qle_bool a b.
Definition Qc_min (a b : Qc) : Qc := if Qc_leb a b then a else b.
Definition Qc_max (a b : Qc) : Qc := if Qc_leb a b then b else a.
Definition Qc_sum (l : list Qc) : Qc := foldr Qcplus (Q2Qc 0) l.
Definition Qc_of_nat (n : nat) : Qc := Q2Qc (inject_Z (Z.of_nat n)).

Definition series_min (col : list (option Qc)) : pyfloat :=
  match valid col with
  | [] => NaN
  | x :: l => Flt (foldl Qc_min x l)
  end.

Definition series_max (col : list (option Qc)) : pyfloat :=
  match valid col with
  | [] => NaN
  | x :: l => Flt (foldl Qc_max x l)
  end.

Definition Qc_of_Z (z : Z) : Qc := Q2Qc (inject_Z z).

(** Whole numbers from 0 up whose total stays below 2^53: every partial
    sum of such values is a float64, in whatever order they are added. *)
Definition small_naturals (l : list Qc) : Prop :=
  Forall (fun t => exists z, 0 <= z /\ t = Qc_of_Z z) l
  /\ (Qc_sum l < Qc_of_Z (2 ^ 53))%Qc.

(** The float64 mean of the values of a column, sum over count, as the
    library computes it.  The order in which the values are added, and with
    it the rounding of the result, is the library's business and differs
    between its builds; the function is a parameter.  What is known of it
    in every build: on [small_naturals] whose total the count divides no
    step rounds, and the result is the exact quotient. *)
Class FloatMean : Type := {
  float_mean : list Qc -> pyfloat;
  float_mean_exact :
    forall (l : list Qc) (z : Z),
      l <> [] -> small_naturals l ->
      (Qc_of_nat (length l) * Qc_of_Z z = Qc_sum l)%Qc ->
      float_mean l = Flt (Qc_of_Z z)
}.

(** [Series.mean()]: [NaN] when no value counts, else the float64 mean. *)
Definition series_mean {FM : FloatMean} (col : list (option Qc)) : pyfloat :=
  match valid col with
  | [] => NaN
  | x :: l => float_mean (x :: l)
  end.

Record metrics : Type := mk_metrics {
  tmin : pyfloat;
  tavg : pyfloat;
  tmax : pyfloat
}.

(** [end_] is [None] when the caller leaves the default [-1]. *)
Definition calculate_range_metrics {FM : FloatMean}
  (start : string) (end_ : option string) : py metrics :=
  let from_start_vals := filter_by query_measurement (DateGe (BindStr start)) in
  let from_start_vals :=
    match end_ with
    | Some e => filter_by from_start_vals (DateLe (BindStr e))
    | None => from_start_vals
    end in
  do! from_start_vals := all from_start_vals in
  let from_start_df := dropna from_start_vals in
  ret (mk_metrics (series_min (tobs <$> from_start_df))
                  (series_mean (tobs <$> from_start_df))
                  (series_max (tobs <$> from_start_df))).

(** ** The routes *)

(** [{ val[1]:val[2] for val in rows if type(val[2]) == float }]: a later
    row with the same date replaces the value of an earlier one. *)
Definition precipitation_dict (rows : list Measurement) : gmap string Qc :=
  foldl (fun d val =>
           match prcp val with
           | Some p => <[date val := p]> d
           | None => d
           end) ∅ rows.

Definition precipitation_vals : py (gmap string Qc) :=
  Session ;;
  do! last_year_data := year_from_most_recent_data None in
  let data_dict := precipitation_dict last_year_data in
  close ;;
  ret data_dict.

(** [{ val[1]:val[3] for val in rows }] *)
Definition temperature_dict (rows : list Measurement) : gmap string (option Qc) :=
  foldl (fun d val => <[date val := tobs val]> d) ∅ rows.

Definition most_active_year_data : py (gmap string (option Qc)) :=
  Session ;;
  do! ma_station := most_active_station in
  do! ma_station_year_data := year_from_most_recent_data (Some ma_station) in
  let output_dict := temperature_dict ma_station_year_data in
  close ;;
  ret output_dict.

Definition from_date_metrics {FM : FloatMean} (start : string) : py metrics :=
  lift (validate_date (PyStr start)) ;;
  Session ;;
  do! range_output_vals := calculate_range_metrics start None in
  close ;;
  ret range_output_vals.

Definition date_range_metrics {FM : FloatMean} (start end_ : string)
  : py metrics :=
  do! start_date := lift (validate_date (PyStr start)) in
  do! end_date := lift (validate_date (PyStr end_)) in
  if datetime_gt start_date end_date then lift (Raise (Exception msg_range))
  else
    Session ;;
    do! range_output_vals := calculate_range_metrics start (Some end_) in
    close ;;
    ret range_output_vals.

(** ** The error kinds of the specification

    The source raises plain [Exception]s told apart by their message; the
    kinds below name the raise sites.  No raise site of the source reports
    missing data. *)

Inductive error_kind : Type :=
| InvalidDateError
| InvalidRangeError
| NoDataError.

Definition error_kind_of (e : exn) : option error_kind :=
  match e with
  | Exception msg =>
      if String.eqb msg msg_not_string || String.eqb msg msg_format
         || String.eqb msg msg_month || String.eqb msg msg_day
      then Some InvalidDateError
      else if String.eqb msg msg_range then Some InvalidRangeError
      else None
  | _ => None
  end.

Definition fails_with {A : Type} (k : error_kind) (o : outcome A) : Prop :=
  exists e, o = Raise e /\ error_kind_of e = Some k.

(** ** Sample data *)

Definition Qc_dec (num : Z) (den : positive) : Qc := Q2Qc (num # den).

Definition sample_rows : list Measurement :=
  [ mk_measurement "A" "2020-01-01" (Some (Qc_dec 1 10)) (Some (Qc_dec 60 1));
    mk_measurement "A" "2020-01-02" None (Some (Qc_dec 62 1));
    mk_measurement "B" "2020-01-01" (Some (Qc_dec 2 10)) (Some (Qc_dec 58 1)) ].

Definition world_of (rows : list Measurement) : world := mk_world rows [].

(** One record in range, without precipitation. *)
Definition dry_rows : list Measurement :=
  [ mk_measurement "A" "2020-01-02" None (Some (Qc_dec 62 1)) ].

Definition window_rows : list Measurement :=
  [ mk_measurement "A" "2016-08-22" (Some (Qc_dec 1 1)) (Some (Qc_dec 70 1));
    mk_measurement "A" "2016-08-23" (Some (Qc_dec 2 1)) (Some (Qc_dec 71 1));
    mk_measurement "B" "2016-08-23" None (Some (Qc_dec 72 1));
    mk_measurement "A" "2016-08-24" (Some (Qc_dec 3 1)) (Some (Qc_dec 73 1));
    mk_measurement "B" "2016-08-24" (Some (Qc_dec 4 1)) (Some (Qc_dec 74 1));
    mk_measurement "A" "2017-08-23" (Some (Qc_dec 5 1)) (Some (Qc_dec 75 1)) ].

(** ** Notions used to state the properties *)

(** A text made of decimal digits only. *)
Definition all_digits (s : string) : Prop :=
  Forall (fun c => is_digit c = true) (list_ascii_of_string s).

(** A computation that leaves the tables alone and whose result depends on
    nothing but the tables. *)
Definition reads_only {A : Type} (m : py A) : Prop :=
  forall w,
    tables (snd (m w)) = tables w
    /\ forall w', tables w' = tables w -> fst (m w') = fst (m w).

(** The count recorded for a station in a list of counts. *)
Fixpoint assoc (s : string) (counts : list (string * Z)) : Z :=
  match counts with
  | [] => 0
  | (s', n) :: counts' => if String.eqb s s' then n else assoc s counts'
  end.

(** The first entry of a list of counts has the largest count. *)
Definition heads_max (l : list (string * Z)) : Prop :=
  match l with
  | [] => True
  | x :: _ => forall q, q ∈ l -> snd q <= snd x
  end.

(** The precipitation of a record, when it is dated [d]. *)
Definition prcp_on (d : string) (r : Measurement) : option Qc :=
  if String.eqb (date r) d then prcp r else None.

(** The text [YYYY-MM-DD] made of eight characters. *)
Definition ymd_string (y1 y2 y3 y4 m1 m2 d1 d2 : ascii) : string :=
  String y1 (String y2 (String y3 (String y4 (String "-"
    (String m1 (String m2 (String "-" (String d1 (String d2 EmptyString))))))))).

(** The value of a run of decimal digits. *)
Definition digits_value (s : string) : Z :=
  fold_left (fun acc c => 10 * acc + digit_val c) (list_ascii_of_string s) 0.

(** The month lengths of the Gregorian calendar, in the words of the
    specification. *)
Definition gregorian_leap (y : Z) : Prop :=
  y mod 4 = 0 /\ (y mod 100 <> 0 \/ y mod 400 = 0).

Definition gregorian_month_length (y m : Z) (len : Z) : Prop :=
  (m = 2 /\ gregorian_leap y /\ len = 29)
  \/ (m = 2 /\ ~ gregorian_leap y /\ len = 28)
  \/ ((m = 4 \/ m = 6 \/ m = 9 \/ m = 11) /\ len = 30)
  \/ ((m = 1 \/ m = 3 \/ m = 5 \/ m = 7 \/ m = 8 \/ m = 10 \/ m = 12) /\ len = 31).

(** The records that reach the reductions of [calculate_range_metrics]:
    dated within the bounds, as texts, and with both float columns set. *)
Definition in_range (start : string) (end_ : option string) (r : Measurement) : bool :=
  String.leb start (date r)
  && match end_ with
     | Some e => String.leb (date r) e
     | None => true
     end.

Definition remains (start : string) (end_ : option string) (r : Measurement) : bool :=
  in_range start end_ r && notnull (prcp r) && notnull (tobs r).

(** The records [year_from_most_recent_data] looks at: all of them, or
    those of the station it was given. *)
Definition of_station (st : option string) (r : Measurement) : bool :=
  match st with
  | Some s => String.eqb (station r) s
  | None => true
  end.

(** How many records a station has. *)
Definition count_of (s : string) (rows : list Measurement) : Z :=
  Z.of_nat (length (List.filter (fun r => String.eqb (station r) s) rows)).

Definition reading (s : string) (d : string) : Measurement :=
  mk_measurement s d None (Some (Qc_dec 70 1)).

(** Five records of station A, nine of B, two of C. *)
Definition activity_rows : list Measurement :=
  [ reading "A" "2017-01-01"; reading "B" "2017-01-01"; reading "C" "2017-01-01";
    reading "B" "2017-01-02"; reading "A" "2017-01-02"; reading "B" "2017-01-03";
    reading "B" "2017-01-04"; reading "A" "2017-01-03"; reading "B" "2017-01-05";
    reading "C" "2017-01-02"; reading "B" "2017-01-06"; reading "A" "2017-01-04";
    reading "B" "2017-01-07"; reading "B" "2017-01-08"; reading "A" "2017-01-05";
    reading "B" "2017-01-09" ].

(** [a] is dated at or after [b], as texts. *)
Definition newer_or_same (a b : Measurement) : Prop :=
  String.leb (date b) (date a) = true.

(** [r0] is a record of the table (and of the station asked for) that no
    other such record is dated after. *)
Definition newest (st : option string) (w : world) (r0 : Measurement) : Prop :=
  In r0 (tables w) /\ of_station st r0 = true
  /\ forall r, In r (tables w) -> of_station st r = true ->
                String.leb (date r) (date r0) = true.

Definition is_executed (e : event) : Prop :=
  match e with
  | Executed _ => True
  | _ => False
  end.

(** A computation that adds nothing but executed statements to the
    journal: it neither opens nor closes a session. *)
Definition only_executes {A : Type} (m : py A) : Prop :=
  forall w, exists evs : list event,
    journal (snd (m w)) = (journal w ++ evs)%list /\ Forall is_executed evs.

(** What a route does to the session: it opens one first; when it returns
    the last thing it did was to close it; when it fails the session is
    never closed.  In between, statements are executed. *)
Definition session_discipline {A : Type} (route : py A) : Prop :=
  forall w, exists evs : list event,
    journal (snd (route w)) = (journal w ++ SessionOpened :: evs)%list
    /\ match fst (route w) with
       | Ok _ =>
           exists evs' : list event,
             evs = (evs' ++ [SessionClosed])%list /\ Forall is_executed evs'
       | Raise _ => Forall is_executed evs
       end.

(** The temperature of a record, null or not, when it is dated [d]. *)
Definition tobs_on (d : string) (r : Measurement) : option (option Qc) :=
  if String.eqb (date r) d then Some (tobs r) else None.

(** The mean without rounding, one function that [FloatMean] describes.
    It stands in for the library where a statement needs a definite one. *)
Definition exact_mean : FloatMean.
Proof.
  refine {| float_mean := fun l => Flt (Qc_sum l / Qc_of_nat (length l))%Qc |}.
  intros l z Hne _ Hz. f_equal. rewrite <- Hz, Qcmult_comm.
  apply Qcdiv_mult_l. destruct l as [|x l]; [congruence|].
  unfold Qc_of_nat. intros H. apply Q2Qc_eq_iff in H.
  unfold Qeq, inject_Z in H. simpl in H. lia.
Defined.

(** * Properties *)

(** ** Characters, [int] and [split] *)

Lemma digit_facts (c : ascii) :
  is_digit c = true ->
  is_space c = false /\ Ascii.eqb c "-" = false /\ Ascii.eqb c "_" = false
  /\ 0 <= digit_val c <= 9.
Proof.
  destruct c as [[] [] [] [] [] [] [] []]; vm_compute; intros H;
    try discriminate H; repeat split; congruence.
Qed.

Lemma lstrip_nospace (c : ascii) (s : string) :
  is_space c = false -> lstrip (String c s) = String c s.
Proof. intros H. simpl. now rewrite H. Qed.

Lemma rstrip_digits (s : string) : all_digits s -> rstrip s = s.
Proof.
  induction s as [|c s IH]; intros H; [reflexivity|].
  inversion H as [|? ? Hc Hs]; subst. simpl. rewrite (IH Hs).
  destruct s; [|reflexivity].
  destruct (digit_facts c Hc) as [-> _]. reflexivity.
Qed.

Lemma int_digits_all (s : string) (acc : Z) (seen : bool) :
  all_digits s -> s <> EmptyString ->
  int_digits acc seen s
  = Some (fold_left (fun a c => 10 * a + digit_val c) (list_ascii_of_string s) acc).
Proof.
  revert acc seen. induction s as [|c s IH]; intros acc seen H Hne; [congruence|].
  inversion H as [|? ? Hc Hs]; subst. simpl. rewrite Hc.
  destruct s as [|c' s]; [reflexivity|]. now apply IH.
Qed.

Lemma int_of_digits (s : string) :
  all_digits s -> s <> EmptyString -> int s = Ok (digits_value s).
Proof.
  intros H Hne. destruct s as [|c s]; [congruence|].
  inversion H as [|? ? Hc Hs]; subst.
  unfold int, strip.
  rewrite lstrip_nospace by apply (digit_facts c Hc).
  rewrite (rstrip_digits _ H).
  assert (Hbody : match String c s with
                  | String "+" r => int_digits 0 false r
                  | String "-" r => Z.opp <$> int_digits 0 false r
                  | r => int_digits 0 false r
                  end = int_digits 0 false (String c s)).
  { clear - Hc. destruct c as [[] [] [] [] [] [] [] []];
      try reflexivity; vm_compute in Hc; discriminate Hc. }
  rewrite Hbody, (int_digits_all _ 0 false H Hne). reflexivity.
Qed.

Lemma split_ymd (y1 y2 y3 y4 m1 m2 d1 d2 : ascii) :
  is_digit y1 = true -> is_digit y2 = true -> is_digit y3 = true ->
  is_digit y4 = true -> is_digit m1 = true -> is_digit m2 = true ->
  is_digit d1 = true -> is_digit d2 = true ->
  split "-" (ymd_string y1 y2 y3 y4 m1 m2 d1 d2)
  = [String y1 (String y2 (String y3 (String y4 EmptyString)));
     String m1 (String m2 EmptyString); String d1 (String d2 EmptyString)].
Proof.
  intros H1 H2 H3 H4 H5 H6 H7 H8. unfold ymd_string. simpl.
  destruct (digit_facts _ H1) as (_ & -> & _).
  destruct (digit_facts _ H2) as (_ & -> & _).
  destruct (digit_facts _ H3) as (_ & -> & _).
  destruct (digit_facts _ H4) as (_ & -> & _).
  destruct (digit_facts _ H5) as (_ & -> & _).
  destruct (digit_facts _ H6) as (_ & -> & _).
  destruct (digit_facts _ H7) as (_ & -> & _).
  destruct (digit_facts _ H8) as (_ & -> & _).
  reflexivity.
Qed.

Lemma date_string_to_nums_ymd (y1 y2 y3 y4 m1 m2 d1 d2 : ascii) :
  is_digit y1 = true -> is_digit y2 = true -> is_digit y3 = true ->
  is_digit y4 = true -> is_digit m1 = true -> is_digit m2 = true ->
  is_digit d1 = true -> is_digit d2 = true ->
  date_string_to_nums (ymd_string y1 y2 y3 y4 m1 m2 d1 d2)
  = Ok [1000 * digit_val y1 + 100 * digit_val y2 + 10 * digit_val y3 + digit_val y4;
        10 * digit_val m1 + digit_val m2; 10 * digit_val d1 + digit_val d2].
Proof.
  intros H1 H2 H3 H4 H5 H6 H7 H8. unfold date_string_to_nums.
  rewrite split_ymd by assumption. simpl.
  rewrite !int_of_digits by (try discriminate; repeat constructor; assumption).
  simpl. unfold digits_value. simpl. repeat f_equal; lia.
Qed.

(** ** [validate_date] *)

Lemma re_match_ymd (y1 y2 y3 y4 m1 m2 d1 d2 : ascii) (rest : string) :
  is_digit y1 = true -> is_digit y2 = true -> is_digit y3 = true ->
  is_digit y4 = true -> is_digit m1 = true -> is_digit m2 = true ->
  is_digit d1 = true -> is_digit d2 = true ->
  re_match date_regex (ymd_string y1 y2 y3 y4 m1 m2 d1 d2 +:+ rest) = true.
Proof.
  intros H1 H2 H3 H4 H5 H6 H7 H8. unfold ymd_string. simpl.
  now rewrite H1, H2, H3, H4, H5, H6, H7, H8.
Qed.

Lemma month_lengths_lookup (y m len : Z) :
  1 <= m <= 12 -> gregorian_month_length y m len ->
  getitem
    (if (y mod 4 =? 0)
        && (((y mod 100 =? 0) && (y mod 400 =? 0)) || negb (y mod 100 =? 0))
     then <["2" := 29]> month_lengths else month_lengths) (pretty m)
  = Ok len
  /\ days_in_month y m = len.
Proof.
  intros Hm Hlen. unfold gregorian_month_length, gregorian_leap in Hlen.
  unfold days_in_month, is_leap.
  destruct (Z.eqb_spec (y mod 4) 0) as [E4|E4];
    destruct (Z.eqb_spec (y mod 100) 0) as [E100|E100];
    destruct (Z.eqb_spec (y mod 400) 0) as [E400|E400];
    simpl;
    assert (Hcases : m = 1 \/ m = 2 \/ m = 3 \/ m = 4 \/ m = 5 \/ m = 6 \/ m = 7
                     \/ m = 8 \/ m = 9 \/ m = 10 \/ m = 11 \/ m = 12) by lia;
    repeat (destruct Hcases as [-> | Hcases]); try subst m;
    (assert (Hl : len = 28 \/ len = 29 \/ len = 30 \/ len = 31) by lia);
    repeat (destruct Hl as [-> | Hl]); try subst len;
    try (exfalso; lia); split; vm_compute; reflexivity.
Qed.

Lemma validate_date_components (s : string) (y m d len : Z) :
  re_match date_regex s = true ->
  date_string_to_nums s = Ok [y; m; d] ->
  1 <= y <= 9999 -> 1 <= m <= 12 ->
  gregorian_month_length y m len -> 1 <= d <= len ->
  validate_date (PyStr s) = Ok (mk_datetime y m d 0 0 0 0).
Proof.
  intros Hre Hnums Hy Hm Hlen Hd.
  destruct (month_lengths_lookup y m len Hm Hlen) as [Hget Hdim].
  unfold validate_date. rewrite Hre, Hnums. simpl.
  replace ((m >? 12) || (m <? 1)) with false by lia.
  rewrite Hget. simpl.
  replace ((d >? len) || (d <? 1)) with false by lia.
  unfold datetime_new. simpl.
  assert (Hlen' : 28 <= len <= 31)
    by (unfold gregorian_month_length in Hlen; lia).
  unfold c_int, between. rewrite Hdim.
  replace ((-2147483648 <=? y) && (y <=? 2147483647)) with true by lia.
  replace ((-2147483648 <=? m) && (m <=? 2147483647)) with true by lia.
  replace ((-2147483648 <=? d) && (d <=? 2147483647)) with true by lia.
  replace ((1 <=? y) && (y <=? 9999)) with true by lia.
  replace ((1 <=? m) && (m <=? 12)) with true by lia.
  replace ((1 <=? d) && (d <=? len)) with true by lia.
  reflexivity.
Qed.

Lemma int_raises (s : string) (e : exn) : int s = Raise e -> e = ValueError.
Proof.
  unfold int. intros H.
  repeat match type of H with
         | context [match ?x with _ => _ end] => destruct x
         end; congruence.
Qed.

Lemma date_string_to_nums_raises (s : string) (e : exn) :
  date_string_to_nums s = Raise e -> e = ValueError.
Proof.
  unfold date_string_to_nums. generalize (split "-" s) as l.
  induction l as [|x l IH]; simpl; [discriminate|].
  destruct (int x) as [z|e'] eqn:Ex; simpl.
  - destruct (omapM int l) as [zs|e'']; simpl; [discriminate|].
    intros H. apply IH. congruence.
  - intros H. apply (int_raises x). congruence.
Qed.

Lemma datetime_new_raises (args : list Z) (e : exn) :
  datetime_new args = Raise e ->
  e = TypeError \/ e = OverflowError \/ e = ValueError.
Proof.
  unfold datetime_new. intros H.
  repeat match type of H with
         | context [if ?b then _ else _] => destruct b
         end; inversion H; auto.
Qed.

(** Whatever [validate_date] raises once the pattern has matched, it is not
    the exception of the format check. *)
Lemma validate_date_past_format (s : string) :
  re_match date_regex s = true ->
  validate_date (PyStr s) <> Raise (Exception msg_format).
Proof.
  intros Hre. unfold validate_date. rewrite Hre. simpl.
  destruct (date_string_to_nums s) as [l|e] eqn:El; simpl.
  2:{ apply date_string_to_nums_raises in El. subst e. discriminate. }
  destruct (index l 0) as [y|e] eqn:Ey; simpl.
  2:{ unfold index in Ey. destruct (l !! 0%nat); inversion Ey. discriminate. }
  destruct (index l 1) as [m|e] eqn:Em; simpl.
  2:{ unfold index in Em. destruct (l !! 1%nat); inversion Em. discriminate. }
  destruct ((m >? 12) || (m <? 1)); [discriminate|].
  destruct (index l 2) as [d|e] eqn:Ed; simpl.
  2:{ unfold index in Ed. destruct (l !! 2%nat); inversion Ed. discriminate. }
  destruct (getitem _ (pretty m)) as [len|e] eqn:Eg; simpl.
  2:{ unfold getitem in Eg. destruct (_ !! pretty m); inversion Eg. discriminate. }
  destruct ((d >? len) || (d <? 1)); [discriminate|].
  destruct (datetime_new l) as [r|e] eqn:En; [discriminate|].
  apply datetime_new_raises in En. destruct En as [->|[->| ->]]; discriminate.
Qed.

(** C4, as amended: every text YYYY-MM-DD of eight digits whose year is at
    least 1, whose month is in 1..12 and whose day is within the month's
    length under the Gregorian leap-year rule is accepted by
    [validate_date], and the result carries the parsed year, month and day
    (at midnight).  2000-02-29 and 2024-02-29 are accepted, 1900-02-29 and
    2023-02-29 are refused as invalid days. *)
Theorem validate_date_accepts_calendar_dates :
  (forall (y1 y2 y3 y4 m1 m2 d1 d2 : ascii) (len : Z),
     is_digit y1 = true -> is_digit y2 = true -> is_digit y3 = true ->
     is_digit y4 = true -> is_digit m1 = true -> is_digit m2 = true ->
     is_digit d1 = true -> is_digit d2 = true ->
     let y := 1000 * digit_val y1 + 100 * digit_val y2
              + 10 * digit_val y3 + digit_val y4 in
     let m := 10 * digit_val m1 + digit_val m2 in
     let d := 10 * digit_val d1 + digit_val d2 in
     1 <= y -> 1 <= m <= 12 ->
     gregorian_month_length y m len -> 1 <= d <= len ->
     validate_date (PyStr (ymd_string y1 y2 y3 y4 m1 m2 d1 d2))
     = Ok (mk_datetime y m d 0 0 0 0))
  /\ validate_date (PyStr "2000-02-29") = Ok (mk_datetime 2000 2 29 0 0 0 0)
  /\ validate_date (PyStr "2024-02-29") = Ok (mk_datetime 2024 2 29 0 0 0 0)
  /\ validate_date (PyStr "1900-02-29") = Raise (Exception msg_day)
  /\ validate_date (PyStr "2023-02-29") = Raise (Exception msg_day).
Proof.
  split; [|repeat split; vm_compute; reflexivity].
  intros y1 y2 y3 y4 m1 m2 d1 d2 len H1 H2 H3 H4 H5 H6 H7 H8 y m d Hy Hm Hlen Hd.
  apply (validate_date_components _ y m d len); try assumption.
  - rewrite <- (re_match_ymd y1 y2 y3 y4 m1 m2 d1 d2 EmptyString) by assumption.
    reflexivity.
  - now apply date_string_to_nums_ymd.
  - pose proof (digit_facts _ H1) as (_ & _ & _ & ?).
    pose proof (digit_facts _ H2) as (_ & _ & _ & ?).
    pose proof (digit_facts _ H3) as (_ & _ & _ & ?).
    pose proof (digit_facts _ H4) as (_ & _ & _ & ?).
    subst y. lia.
Qed.

Lemma validate_date_accepts_calendar_dates_witness :
  validate_date (PyStr (ymd_string "2" "0" "2" "4" "0" "2" "2" "9"))
  = Ok (mk_datetime 2024 2 29 0 0 0 0).
Proof.
  apply (proj1 validate_date_accepts_calendar_dates
               "2" "0" "2" "4" "0" "2" "2" "9" 29)%char;
    try reflexivity; vm_compute; intuition congruence.
Defined.

(** C4 as stated fails at year 0000: the text is well formed, month 01 and
    day 01 exist, and [validate_date] ends in the [ValueError] of the
    [datetime] constructor. *)
Lemma validate_date_year_zero_counterexample :
  all_digits "0000" /\ all_digits "01"
  /\ 1 <= 1 <= 12 /\ gregorian_month_length 0 1 31 /\ 1 <= 1 <= 31
  /\ validate_date (PyStr (ymd_string "0" "0" "0" "0" "0" "1" "0" "1"))
     = Raise ValueError.
Proof.
  split; [repeat constructor|]. split; [repeat constructor|].
  split; [lia|]. split; [|split; [lia | reflexivity]].
  right. right. right. split; [left; reflexivity | reflexivity].
Qed.

(** C8: the format check of [validate_date] is a prefix match.  A text
    that starts with four digits, a dash, two digits, a dash and two digits
    passes [re.match] whatever follows, and [validate_date] does not raise
    the exception of the format check on it; 2020-01-01-extra-junk passes
    the check and fails later, with a [ValueError] from [int]. *)
Theorem format_check_is_prefix_match :
  (forall (y1 y2 y3 y4 m1 m2 d1 d2 : ascii) (rest : string),
     is_digit y1 = true -> is_digit y2 = true -> is_digit y3 = true ->
     is_digit y4 = true -> is_digit m1 = true -> is_digit m2 = true ->
     is_digit d1 = true -> is_digit d2 = true ->
     re_match date_regex (ymd_string y1 y2 y3 y4 m1 m2 d1 d2 +:+ rest) = true
     /\ validate_date (PyStr (ymd_string y1 y2 y3 y4 m1 m2 d1 d2 +:+ rest))
        <> Raise (Exception msg_format))
  /\ re_match date_regex "2020-01-01-extra-junk" = true
  /\ validate_date (PyStr "2020-01-01-extra-junk") = Raise ValueError.
Proof.
  split; [|split; vm_compute; reflexivity].
  intros y1 y2 y3 y4 m1 m2 d1 d2 rest H1 H2 H3 H4 H5 H6 H7 H8.
  assert (Hre := re_match_ymd y1 y2 y3 y4 m1 m2 d1 d2 rest H1 H2 H3 H4 H5 H6 H7 H8).
  split; [exact Hre | now apply validate_date_past_format].
Qed.

Lemma format_check_is_prefix_match_witness :
  re_match date_regex
    (ymd_string "2" "0" "2" "0" "0" "1" "0" "1" +:+ "-extra-junk") = true
  /\ validate_date
       (PyStr (ymd_string "2" "0" "2" "0" "0" "1" "0" "1" +:+ "-extra-junk"))
     <> Raise (Exception msg_format).
Proof.
  apply (proj1 format_check_is_prefix_match
               "2"%char "0"%char "2"%char "0"%char "0"%char "1"%char
               "0"%char "1"%char "-extra-junk");
    reflexivity.
Defined.

(** ** Code that holds a session only reads the tables *)

Lemma reads_only_ret {A : Type} (a : A) : reads_only (ret a).
Proof. intros w. split; [reflexivity | intros; reflexivity]. Qed.

Lemma reads_only_lift {A : Type} (o : outcome A) : reads_only (lift o).
Proof. intros w. split; [reflexivity | intros; reflexivity]. Qed.

Lemma reads_only_bind {A B : Type} (m : py A) (k : A -> py B) :
  reads_only m -> (forall a, reads_only (k a)) -> reads_only (bind m k).
Proof.
  intros Hm Hk w. unfold bind.
  destruct (Hm w) as [Ht Hr].
  destruct (m w) as [[a|e] w1] eqn:Ew; simpl in Ht.
  - split.
    + destruct (Hk a w1) as [Hkt _]. congruence.
    + intros w' Hw'. specialize (Hr w' Hw').
      destruct (Hm w') as [Ht' _].
      destruct (m w') as [[a'|e'] w1']; simpl in *; try discriminate.
      inversion Hr; subst a'.
      destruct (Hk a w1) as [_ Hkr]. apply Hkr. congruence.
  - split; [exact Ht|].
    intros w' Hw'. specialize (Hr w' Hw').
    destruct (m w') as [[a'|e'] w1']; simpl in *; congruence.
Qed.

Lemma reads_only_record (e : event) : reads_only (record e).
Proof. intros w. split; [reflexivity | intros; reflexivity]. Qed.

Lemma reads_only_all (q : query) : reads_only (all q).
Proof.
  intros w. split; [reflexivity|]. intros w' H. unfold all. simpl. now rewrite H.
Qed.

Lemma reads_only_first (q : query) : reads_only (first q).
Proof.
  intros w. split; [reflexivity|]. intros w' H. unfold first. simpl. now rewrite H.
Qed.

Lemma reads_only_all_station_counts : reads_only all_station_counts.
Proof.
  intros w. split; [reflexivity|]. intros w' H.
  unfold all_station_counts. simpl. now rewrite H.
Qed.

Create HintDb reads.
#[local] Hint Resolve reads_only_ret reads_only_lift reads_only_record
  reads_only_all reads_only_first reads_only_all_station_counts : reads.

Ltac reads_only_steps :=
  repeat first
    [ apply reads_only_bind; [|intros ?]
    | solve [auto with reads]
    | match goal with |- reads_only (if ?b then _ else _) => destruct b end ].

Lemma reads_only_year_from_most_recent_data (st : option string) :
  reads_only (year_from_most_recent_data st).
Proof. unfold year_from_most_recent_data. reads_only_steps. Qed.

Lemma reads_only_most_active_station : reads_only most_active_station.
Proof. unfold most_active_station. reads_only_steps. Qed.

(** ** The range route *)

(** C7: when both texts pass [validate_date] and the start date is later
    than the end date, [date_range_metrics] raises the range exception
    (the specification's InvalidRangeError) and the world stays as it was:
    no session was opened and no statement executed.  Conversely, a run of
    the route that touches the journal had a start date not after its end
    date. *)
Theorem start_after_end_is_rejected {FM : FloatMean} :
  (forall (start end_ : string) (start_date end_date : datetime) (w : world),
     validate_date (PyStr start) = Ok start_date ->
     validate_date (PyStr end_) = Ok end_date ->
     datetime_gt start_date end_date = true ->
     date_range_metrics start end_ w = (Raise (Exception msg_range), w)
     /\ error_kind_of (Exception msg_range) = Some InvalidRangeError)
  /\ (forall (start end_ : string) (w : world),
        journal (snd (date_range_metrics start end_ w)) <> journal w ->
        exists start_date end_date,
          validate_date (PyStr start) = Ok start_date
          /\ validate_date (PyStr end_) = Ok end_date
          /\ datetime_gt start_date end_date = false).
Proof.
  split.
  - intros start end_ ds de w Hs He Hgt. split; [|reflexivity].
    unfold date_range_metrics, bind, lift. now rewrite Hs, He, Hgt.
  - intros start end_ w. unfold date_range_metrics, bind, lift.
    destruct (validate_date (PyStr start)) as [ds|e]; [|simpl; congruence].
    destruct (validate_date (PyStr end_)) as [de|e]; [|simpl; congruence].
    destruct (datetime_gt ds de) eqn:Hgt; [simpl; congruence|].
    intros _. now exists ds, de.
Qed.

Lemma start_after_end_is_rejected_witness :
  (date_range_metrics (FM := exact_mean) "2020-01-02" "2020-01-01"
     (world_of sample_rows)
   = (Raise (Exception msg_range), world_of sample_rows)
   /\ error_kind_of (Exception msg_range) = Some InvalidRangeError)
  /\ exists start_date end_date,
       validate_date (PyStr "2020-01-01") = Ok start_date
       /\ validate_date (PyStr "2020-01-02") = Ok end_date
       /\ datetime_gt start_date end_date = false.
Proof.
  split.
  - apply (proj1 (start_after_end_is_rejected (FM := exact_mean))
                 "2020-01-02" "2020-01-01"
                 (mk_datetime 2020 1 2 0 0 0 0) (mk_datetime 2020 1 1 0 0 0 0));
      vm_compute; reflexivity.
  - apply (proj2 (start_after_end_is_rejected (FM := exact_mean))
                 "2020-01-01" "2020-01-02"
                 (world_of sample_rows)).
    vm_compute. discriminate.
Defined.

(** ** Reductions over a column *)

Lemma Qc_leb_le (a b : Qc) : Qc_leb a b = true <-> (a <= b)%Qc.
Proof. unfold Qc_leb, Qcle. apply Qle_bool_iff. Qed.

Lemma Qc_leb_gt (a b : Qc) : Qc_leb a b = false -> (b <= a)%Qc.
Proof.
  intros H. apply Qclt_le_weak, Qcnot_le_lt. intros Hle.
  apply Qc_leb_le in Hle. congruence.
Qed.

Lemma foldl_min_spec (l : list Qc) (x : Qc) :
  foldl Qc_min x l ∈ x :: l
  /\ forall t, t ∈ x :: l -> (foldl Qc_min x l <= t)%Qc.
Proof.
  revert x. induction l as [|y l IH]; intros x; simpl.
  - split; [left|]. intros t Ht. apply list_elem_of_singleton in Ht. subst.
    apply Qcle_refl.
  - destruct (IH (Qc_min x y)) as [Hin Hle]. split.
    + apply elem_of_cons in Hin. destruct Hin as [Hin|Hin].
      * rewrite Hin. unfold Qc_min. destruct (Qc_leb x y); [left|right; left].
      * right; right; exact Hin.
    + intros t Ht.
      assert (Hm : (Qc_min x y <= x)%Qc /\ (Qc_min x y <= y)%Qc).
      { unfold Qc_min. destruct (Qc_leb x y) eqn:E.
        - split; [apply Qcle_refl | now apply Qc_leb_le].
        - split; [now apply Qc_leb_gt | apply Qcle_refl]. }
      destruct Hm as [Hx Hy].
      assert (Hmin : (foldl Qc_min (Qc_min x y) l <= Qc_min x y)%Qc)
        by (apply Hle; left).
      apply elem_of_cons in Ht. destruct Ht as [->|Ht].
      * eapply Qcle_trans; eassumption.
      * apply elem_of_cons in Ht. destruct Ht as [->|Ht].
        -- eapply Qcle_trans; eassumption.
        -- apply Hle. now right.
Qed.

Lemma foldl_max_spec (l : list Qc) (x : Qc) :
  foldl Qc_max x l ∈ x :: l
  /\ forall t, t ∈ x :: l -> (t <= foldl Qc_max x l)%Qc.
Proof.
  revert x. induction l as [|y l IH]; intros x; simpl.
  - split; [left|]. intros t Ht. apply list_elem_of_singleton in Ht. subst.
    apply Qcle_refl.
  - destruct (IH (Qc_max x y)) as [Hin Hle]. split.
    + apply elem_of_cons in Hin. destruct Hin as [Hin|Hin].
      * rewrite Hin. unfold Qc_max. destruct (Qc_leb x y); [right; left|left].
      * right; right; exact Hin.
    + intros t Ht.
      assert (Hm : (x <= Qc_max x y)%Qc /\ (y <= Qc_max x y)%Qc).
      { unfold Qc_max. destruct (Qc_leb x y) eqn:E.
        - split; [now apply Qc_leb_le | apply Qcle_refl].
        - split; [apply Qcle_refl | now apply Qc_leb_gt]. }
      destruct Hm as [Hx Hy].
      assert (Hmax : (Qc_max x y <= foldl Qc_max (Qc_max x y) l)%Qc)
        by (apply Hle; left).
      apply elem_of_cons in Ht. destruct Ht as [->|Ht].
      * eapply Qcle_trans; eassumption.
      * apply elem_of_cons in Ht. destruct Ht as [->|Ht].
        -- eapply Qcle_trans; eassumption.
        -- apply Hle. now right.
Qed.

Lemma valid_fmap_tobs (l : list Measurement) : valid (tobs <$> l) = omap tobs l.
Proof.
  unfold valid. induction l as [|r l IH]; [reflexivity|].
  rewrite fmap_cons. simpl. destruct (tobs r); [f_equal|]; exact IH.
Qed.

Lemma filter_filter_andb {A : Type} (f g : A -> bool) (l : list A) :
  List.filter g (List.filter f l) = List.filter (fun x => f x && g x) l.
Proof.
  induction l as [|x l IH]; [reflexivity|]. simpl.
  destruct (f x); simpl; [|exact IH]. destruct (g x); now rewrite IH.
Qed.

Lemma filter_ext_bool {A : Type} (f g : A -> bool) (l : list A) :
  (forall x, f x = g x) -> List.filter f l = List.filter g l.
Proof.
  intros H. induction l as [|x l IH]; [reflexivity|]. simpl.
  now rewrite H, IH.
Qed.

(** ** [calculate_range_metrics] *)

Lemma calculate_range_metrics_run {FM : FloatMean}
  (start : string) (end_ : option string) (w : world) :
  let col := tobs <$> List.filter (remains start end_) (tables w) in
  fst (calculate_range_metrics start end_ w)
  = Ok (mk_metrics (series_min col) (series_mean col) (series_max col)).
Proof.
  assert (Hrows : dropna (select
            (match end_ with
             | Some e => filter_by (filter_by query_measurement (DateGe (BindStr start)))
                                   (DateLe (BindStr e))
             | None => filter_by query_measurement (DateGe (BindStr start))
             end) (tables w))
          = List.filter (remains start end_) (tables w)).
  { unfold dropna, select. destruct end_ as [e|]; simpl;
      rewrite filter_filter_andb; apply filter_ext_bool; intros r;
      unfold remains, in_range; simpl;
      destruct (String.leb start (date r)); simpl; try reflexivity;
      destruct (String.leb (date r) e); reflexivity. }
  simpl. unfold calculate_range_metrics, bind, all, ret. simpl.
  now rewrite Hrows.
Qed.

Ltac qc_equal := apply Qc_is_canon; vm_compute; reflexivity.

Lemma sample_mean {FM : FloatMean} :
  float_mean [Qc_dec 60 1; Qc_dec 58 1] = Flt (Qc_dec 59 1).
Proof.
  apply (float_mean_exact [Qc_dec 60 1; Qc_dec 58 1] 59); [discriminate| |qc_equal].
  split; [|reflexivity].
  repeat constructor; [exists 60 | exists 58]; split; try lia; reflexivity.
Qed.

(** C1, as amended: [calculate_range_metrics] takes the records dated at
    or after [start] (and at or before the end, when one is given), drops
    those whose precipitation or temperature is null, and returns the
    minimum, the float64 mean and the maximum of the temperatures that
    remain.  Over the three sample records and start 2020-01-01 the record
    without precipitation is dropped and the result is 58, 59, 60. *)
Theorem range_metrics_of_remaining_records {FM : FloatMean} :
  (forall (start : string) (end_ : option string) (w : world),
     let temps := omap tobs (List.filter (remains start end_) (tables w)) in
     temps <> [] ->
     exists lo hi,
       fst (calculate_range_metrics start end_ w)
       = Ok (mk_metrics (Flt lo) (float_mean temps) (Flt hi))
       /\ lo ∈ temps /\ (forall t, t ∈ temps -> (lo <= t)%Qc)
       /\ hi ∈ temps /\ (forall t, t ∈ temps -> (t <= hi)%Qc))
  /\ fst (calculate_range_metrics "2020-01-01" None (world_of sample_rows))
     = Ok (mk_metrics (Flt (Qc_dec 58 1)) (Flt (Qc_dec 59 1)) (Flt (Qc_dec 60 1))).
Proof.
  split.
  - intros start end_ w temps Hne.
    rewrite calculate_range_metrics_run.
    unfold series_min, series_mean, series_max. rewrite valid_fmap_tobs.
    fold temps. destruct temps as [|x l] eqn:Et; [congruence|].
    exists (foldl Qc_min x l), (foldl Qc_max x l).
    destruct (foldl_min_spec l x) as [Hmin1 Hmin2].
    destruct (foldl_max_spec l x) as [Hmax1 Hmax2].
    repeat split; assumption.
  - rewrite calculate_range_metrics_run.
    unfold series_min, series_mean, series_max. rewrite valid_fmap_tobs.
    change (omap tobs (List.filter (remains "2020-01-01" None)
                         (tables (world_of sample_rows))))
      with [Qc_dec 60 1; Qc_dec 58 1].
    cbv beta iota. rewrite sample_mean. reflexivity.
Qed.

Lemma range_metrics_of_remaining_records_witness :
  exists lo hi,
    fst (calculate_range_metrics (FM := exact_mean) "2020-01-01" None
           (world_of sample_rows))
    = Ok (mk_metrics (Flt lo)
            (float_mean (FloatMean := exact_mean)
               (omap tobs (List.filter (remains "2020-01-01" None) sample_rows)))
            (Flt hi))
    /\ lo ∈ omap tobs (List.filter (remains "2020-01-01" None) sample_rows)
    /\ (forall t, t ∈ omap tobs (List.filter (remains "2020-01-01" None) sample_rows)
                  -> (lo <= t)%Qc)
    /\ hi ∈ omap tobs (List.filter (remains "2020-01-01" None) sample_rows)
    /\ (forall t, t ∈ omap tobs (List.filter (remains "2020-01-01" None) sample_rows)
                  -> (t <= hi)%Qc).
Proof.
  apply (proj1 (range_metrics_of_remaining_records (FM := exact_mean))
               "2020-01-01" None (world_of sample_rows)).
  vm_compute. discriminate.
Defined.

(** C1 as stated fails on its own example: the record of 2020-01-02 has no
    precipitation, is dropped with its temperature 62, and the result is
    not 58, 60, 62. *)
Lemma range_metrics_null_precipitation_counterexample :
  fst (calculate_range_metrics (FM := exact_mean) "2020-01-01" None
         (world_of sample_rows))
  <> Ok (mk_metrics (Flt (Qc_dec 58 1)) (Flt (Qc_dec 60 1)) (Flt (Qc_dec 62 1))).
Proof.
  rewrite calculate_range_metrics_run. vm_compute. intros H. inversion H.
Qed.

(** C2, as amended: when no record remains after the bounds and the
    dropping of nulls, [calculate_range_metrics] returns normally, with
    NaN as minimum, mean and maximum. *)
Theorem range_metrics_without_records_are_nan {FM : FloatMean}
  (start : string) (end_ : option string) (w : world) :
  List.filter (remains start end_) (tables w) = [] ->
  fst (calculate_range_metrics start end_ w) = Ok (mk_metrics NaN NaN NaN).
Proof.
  intros H. rewrite calculate_range_metrics_run. simpl. now rewrite H.
Qed.

Lemma range_metrics_without_records_are_nan_witness :
  fst (calculate_range_metrics (FM := exact_mean) "2020-01-01" None
         (world_of dry_rows))
  = Ok (mk_metrics NaN NaN NaN).
Proof.
  apply (range_metrics_without_records_are_nan (FM := exact_mean)
           "2020-01-01" None (world_of dry_rows)).
  vm_compute. reflexivity.
Defined.

(** C2 as stated fails: when the only record in range has no precipitation
    nothing remains, and the result is a normal return carrying NaN three
    times, not a report of missing data. *)
Lemma range_metrics_no_data_counterexample :
  List.filter (remains "2020-01-01" None) dry_rows = []
  /\ fst (calculate_range_metrics (FM := exact_mean) "2020-01-01" None
            (world_of dry_rows))
     = Ok (mk_metrics NaN NaN NaN)
  /\ ~ fails_with NoDataError
         (fst (calculate_range_metrics (FM := exact_mean) "2020-01-01" None
                 (world_of dry_rows))).
Proof.
  assert (H : fst (calculate_range_metrics (FM := exact_mean) "2020-01-01" None
                     (world_of dry_rows))
              = Ok (mk_metrics NaN NaN NaN)) by (vm_compute; reflexivity).
  split; [vm_compute; reflexivity|]. split; [exact H|].
  rewrite H. intros [e [He _]]. discriminate He.
Qed.

(** ** [year_from_most_recent_data] *)

Lemma select_year_data (st : option string) (rows : list Measurement) :
  select (match st with
          | Some s => filter_by (order_by_desc_date query_measurement) (StationEq s)
          | None => order_by_desc_date query_measurement
          end) rows
  = sort_desc_date (List.filter (of_station st) rows).
Proof.
  unfold select. destruct st as [s|]; simpl; [|reflexivity].
  f_equal. apply filter_ext_bool. intros r. simpl. apply andb_true_r.
Qed.

Lemma select_year_window (st : option string) (b : datetime) (rows : list Measurement) :
  select (filter_by
            (match st with
             | Some s => filter_by (order_by_desc_date query_measurement) (StationEq s)
             | None => order_by_desc_date query_measurement
             end) (DateGe (BindDatetime b))) rows
  = sort_desc_date
      (List.filter (fun r => of_station st r && String.leb (datetime_text b) (date r))
                   rows).
Proof.
  unfold select. destruct st as [s|]; simpl; f_equal; apply filter_ext_bool;
    intros r; simpl; now rewrite andb_true_r.
Qed.

(** What the function computes when the newest record anchors a window. *)
Lemma year_from_most_recent_data_run
  (st : option string) (w : world) (r0 : Measurement) (nums : list Z)
  (d b : datetime) :
  head (sort_desc_date (List.filter (of_station st) (tables w))) = Some r0 ->
  date_string_to_nums (date r0) = Ok nums ->
  datetime_new nums = Ok d ->
  sub_days d 365 = Ok b ->
  fst (year_from_most_recent_data st w)
  = Ok (sort_desc_date
          (List.filter
             (fun r => of_station st r && String.leb (datetime_text b) (date r))
             (tables w))).
Proof.
  intros Hhead Hnums Hd Hb.
  unfold year_from_most_recent_data, bind, first, lift, all. simpl.
  rewrite select_year_data, Hhead. simpl. rewrite Hnums, Hd, Hb. simpl.
  now rewrite select_year_window.
Qed.

Lemma ascii_compare_refl (c : ascii) : Ascii.compare c c = Eq.
Proof.
  pose proof (Ascii.compare_antisym c c) as H.
  destruct (Ascii.compare c c); simpl in H; congruence.
Qed.

(** A text is smaller than each of its proper extensions. *)
Lemma leb_proper_extension (s : string) (c : ascii) (t : string) :
  String.leb (s +:+ String c t) s = false.
Proof.
  unfold String.leb. induction s as [|a s IH]; simpl; [reflexivity|].
  now rewrite ascii_compare_refl.
Qed.

Lemma append_assoc (a b c : string) : (a +:+ b) +:+ c = a +:+ (b +:+ c).
Proof.
  induction a as [|x a IH]; [reflexivity|].
  change (String x ((a +:+ b) +:+ c) = String x (a +:+ (b +:+ c))).
  now rewrite IH.
Qed.

(** A record dated on the day of the bound, as ten characters, is below the
    bound text, which goes on with the time of day. *)
Lemma bound_day_is_below_bound (b : datetime) (r : Measurement) :
  date r = zpad 4 (year b) +:+ "-" +:+ zpad 2 (month b) +:+ "-" +:+ zpad 2 (day b) ->
  String.leb (datetime_text b) (date r) = false.
Proof.
  intros ->. unfold datetime_text.
  set (p4 := zpad 4 (year b)). set (p2 := zpad 2 (month b)).
  set (q2 := zpad 2 (day b)).
  replace (p4 +:+ "-" +:+ p2 +:+ "-" +:+ q2 +:+ " " +:+ zpad 2 (hour b) +:+ ":"
           +:+ zpad 2 (minute b) +:+ ":" +:+ zpad 2 (second b) +:+ "."
           +:+ zpad 6 (microsecond b))
    with ((p4 +:+ "-" +:+ p2 +:+ "-" +:+ q2)
          +:+ String " " (zpad 2 (hour b) +:+ ":" +:+ zpad 2 (minute b) +:+ ":"
                          +:+ zpad 2 (second b) +:+ "." +:+ zpad 6 (microsecond b))).
  - apply leb_proper_extension.
  - rewrite !append_assoc. reflexivity.
Qed.

(** C3, as amended: when there is no record at all (or none of the station
    asked for), [year_from_most_recent_data] fails with the [TypeError] of
    subscripting the [None] that [first()] returned. *)
Theorem last_year_window_without_records_raises_type_error
  (st : option string) (w : world) :
  List.filter (of_station st) (tables w) = [] ->
  fst (year_from_most_recent_data st w) = Raise TypeError.
Proof.
  intros H. unfold year_from_most_recent_data, bind, first, lift. simpl.
  now rewrite select_year_data, H.
Qed.

Lemma last_year_window_without_records_raises_type_error_witness :
  fst (year_from_most_recent_data (Some "Z") (world_of sample_rows))
  = Raise TypeError.
Proof.
  apply (last_year_window_without_records_raises_type_error (Some "Z")
           (world_of sample_rows)).
  vm_compute. reflexivity.
Defined.

(** C3 as stated fails on the empty table: the failure is a [TypeError],
    which is not a report of missing data. *)
Lemma last_year_window_empty_counterexample :
  fst (year_from_most_recent_data None (world_of [])) = Raise TypeError
  /\ ~ fails_with NoDataError (fst (year_from_most_recent_data None (world_of []))).
Proof.
  assert (H : fst (year_from_most_recent_data None (world_of [])) = Raise TypeError)
    by (vm_compute; reflexivity).
  split; [exact H|]. rewrite H. intros [e [He Hk]].
  inversion He; subst e. discriminate Hk.
Qed.

(** C5 fails on the code, by a slip of the code: the bound is the newest
    date less 365 days, but it reaches SQLite as a datetime text with a
    time of day, and a record dated on the bound day compares below it.
    With newest date 2017-08-23 the bound is 2016-08-23, and the two
    records of 2016-08-23 are left out: the window starts at 2016-08-24. *)
Theorem last_year_window_leaves_out_bound_day :
  sub_days (mk_datetime 2017 8 23 0 0 0 0) 365 = Ok (mk_datetime 2016 8 23 0 0 0 0)
  /\ datetime_text (mk_datetime 2016 8 23 0 0 0 0) = "2016-08-23 00:00:00.000000"
  /\ fst (year_from_most_recent_data None (world_of window_rows))
     = Ok [ mk_measurement "A" "2017-08-23" (Some (Qc_dec 5 1)) (Some (Qc_dec 75 1));
            mk_measurement "A" "2016-08-24" (Some (Qc_dec 3 1)) (Some (Qc_dec 73 1));
            mk_measurement "B" "2016-08-24" (Some (Qc_dec 4 1)) (Some (Qc_dec 74 1)) ]
  /\ List.filter (fun r => String.leb "2016-08-23" (date r)) window_rows
     = [ mk_measurement "A" "2016-08-23" (Some (Qc_dec 2 1)) (Some (Qc_dec 71 1));
         mk_measurement "B" "2016-08-23" None (Some (Qc_dec 72 1));
         mk_measurement "A" "2016-08-24" (Some (Qc_dec 3 1)) (Some (Qc_dec 73 1));
         mk_measurement "B" "2016-08-24" (Some (Qc_dec 4 1)) (Some (Qc_dec 74 1));
         mk_measurement "A" "2017-08-23" (Some (Qc_dec 5 1)) (Some (Qc_dec 75 1)) ].
Proof. repeat split; vm_compute; reflexivity. Qed.

Lemma elem_of_insert_desc (r x : Measurement) (l : list Measurement) :
  r ∈ insert_desc x l <-> r = x \/ r ∈ l.
Proof.
  induction l as [|y l IH]; simpl.
  - rewrite list_elem_of_singleton. set_solver.
  - destruct (String.leb (date y) (date x)).
    + apply elem_of_cons.
    + rewrite !elem_of_cons, IH. tauto.
Qed.

Lemma elem_of_sort_desc_date (r : Measurement) (l : list Measurement) :
  r ∈ sort_desc_date l <-> r ∈ l.
Proof.
  induction l as [|x l IH]; simpl; [reflexivity|].
  rewrite elem_of_insert_desc, elem_of_cons, IH. reflexivity.
Qed.

(** For every table: the records dated on the day of the bound are not in
    the window the function returns. *)
Lemma year_window_excludes_bound_day
  (st : option string) (w : world) (r0 r : Measurement) (nums : list Z)
  (d b : datetime) :
  head (sort_desc_date (List.filter (of_station st) (tables w))) = Some r0 ->
  date_string_to_nums (date r0) = Ok nums ->
  datetime_new nums = Ok d ->
  sub_days d 365 = Ok b ->
  date r = zpad 4 (year b) +:+ "-" +:+ zpad 2 (month b) +:+ "-" +:+ zpad 2 (day b) ->
  exists rows, fst (year_from_most_recent_data st w) = Ok rows /\ r ∉ rows.
Proof.
  intros Hhead Hnums Hd Hb Hr. eexists. split.
  - eapply year_from_most_recent_data_run; eassumption.
  - rewrite elem_of_sort_desc_date, list_elem_of_In, filter_In.
    rewrite (bound_day_is_below_bound b r Hr), andb_false_r.
    intros [_ H]. discriminate H.
Qed.

(** ** [most_active_station] *)

Lemma assoc_bump (s s' : string) (counts : list (string * Z)) :
  assoc s (bump s' counts) = assoc s counts + (if String.eqb s s' then 1 else 0).
Proof.
  induction counts as [|[k n] counts IH]; simpl.
  - destruct (String.eqb s s'); reflexivity.
  - destruct (String.eqb_spec s' k) as [->|Hne]; simpl.
    + destruct (String.eqb s k); lia.
    + destruct (String.eqb_spec s k) as [->|Hne'].
      * destruct (String.eqb_spec k s'); [congruence | lia].
      * exact IH.
Qed.

Lemma count_of_cons (s : string) (r : Measurement) (rows : list Measurement) :
  count_of s (r :: rows)
  = count_of s rows + (if String.eqb s (station r) then 1 else 0).
Proof.
  unfold count_of. simpl. rewrite (String.eqb_sym (station r) s).
  destruct (String.eqb s (station r)); simpl; lia.
Qed.

Lemma assoc_foldl_bump (s : string) (rows : list Measurement) (counts : list (string * Z)) :
  assoc s (foldl (fun cs r => bump (station r) cs) counts rows)
  = assoc s counts + count_of s rows.
Proof.
  revert counts. induction rows as [|r rows IH]; intros counts; simpl.
  - unfold count_of. simpl. lia.
  - rewrite IH, assoc_bump, count_of_cons. lia.
Qed.

Lemma assoc_group_count (s : string) (rows : list Measurement) :
  assoc s (group_count rows) = count_of s rows.
Proof. unfold group_count. rewrite assoc_foldl_bump. simpl. lia. Qed.

(** Keys occur once in the counts, so an entry is what [assoc] finds. *)
Lemma bump_keys (s : string) (counts : list (string * Z)) :
  NoDup (fst <$> counts) ->
  NoDup (fst <$> bump s counts)
  /\ forall k, k ∈ fst <$> bump s counts <-> k = s \/ k ∈ fst <$> counts.
Proof.
  induction counts as [|[k n] counts IH]; simpl; intros Hnd.
  - split; [repeat constructor; set_solver | set_solver].
  - apply NoDup_cons in Hnd. destruct Hnd as [Hk Hnd].
    destruct (String.eqb_spec s k) as [->|Hne]; simpl.
    + split; [apply NoDup_cons; split; assumption | set_solver].
    + destruct (IH Hnd) as [IH1 IH2]. split.
      * apply NoDup_cons. split; [|exact IH1].
        rewrite IH2. intros [->|H]; [congruence | exact (Hk H)].
      * intros k'. rewrite !elem_of_cons, IH2. tauto.
Qed.

Lemma group_count_keys (rows : list Measurement) : NoDup (fst <$> group_count rows).
Proof.
  unfold group_count.
  assert (H : forall counts, NoDup (fst <$> counts) ->
              NoDup (fst <$> foldl (fun cs r => bump (station r) cs) counts rows)).
  { induction rows as [|r rows IH]; intros counts Hnd; simpl; [exact Hnd|].
    apply IH, bump_keys, Hnd. }
  apply H. constructor.
Qed.

Lemma assoc_of_entry (s : string) (n : Z) (counts : list (string * Z)) :
  NoDup (fst <$> counts) -> (s, n) ∈ counts -> assoc s counts = n.
Proof.
  induction counts as [|[k m] counts IH]; simpl; intros Hnd Hin.
  - inversion Hin.
  - apply NoDup_cons in Hnd. destruct Hnd as [Hk Hnd].
    apply elem_of_cons in Hin. destruct Hin as [Heq|Hin].
    + inversion Heq; subst. now rewrite String.eqb_refl.
    + destruct (String.eqb_spec s k) as [->|Hne]; [|now apply IH].
      exfalso. apply Hk. apply list_elem_of_fmap. now exists (k, n).
Qed.

Lemma entry_of_assoc (s : string) (counts : list (string * Z)) :
  assoc s counts <> 0 -> (s, assoc s counts) ∈ counts.
Proof.
  induction counts as [|[k m] counts IH]; simpl; intros H; [congruence|].
  destruct (String.eqb_spec s k) as [->|Hne]; [left | right; now apply IH].
Qed.

Lemma insert_count_spec (p : string * Z) (l : list (string * Z)) :
  heads_max l ->
  heads_max (insert_count p l)
  /\ forall q, q ∈ insert_count p l <-> q = p \/ q ∈ l.
Proof.
  destruct l as [|x l]; simpl; intros Hmax.
  - split; [|intros q; rewrite list_elem_of_singleton; set_solver].
    intros q Hq. apply list_elem_of_singleton in Hq. subst. lia.
  - destruct (count_before p x) eqn:Eb.
    + assert (Hle : snd x <= snd p) by (unfold count_before in Eb; lia).
      split; [|intros q; apply elem_of_cons].
      intros q Hq. apply elem_of_cons in Hq. destruct Hq as [->|Hq]; [lia|].
      specialize (Hmax q Hq). lia.
    + assert (Hgt : snd p <= snd x) by (unfold count_before in Eb; lia).
      assert (Hmem : forall q, q ∈ insert_count p l <-> q = p \/ q ∈ l).
      { clear. induction l as [|y l IH]; simpl; intros q.
        - rewrite list_elem_of_singleton. set_solver.
        - destruct (count_before p y); [apply elem_of_cons|].
          rewrite !elem_of_cons, IH. tauto. }
      split.
      * simpl. intros q Hq. apply elem_of_cons in Hq.
        destruct Hq as [->|Hq]; [lia|]. apply Hmem in Hq.
        destruct Hq as [->|Hq]; [lia|]. apply Hmax. now right.
      * intros q. rewrite !elem_of_cons, Hmem. tauto.
Qed.

Lemma sort_desc_count_spec (l : list (string * Z)) :
  heads_max (sort_desc_count l)
  /\ forall q, q ∈ sort_desc_count l <-> q ∈ l.
Proof.
  induction l as [|x l [IH1 IH2]]; simpl; [split; [exact I | reflexivity]|].
  destruct (insert_count_spec x _ IH1) as [H1 H2]. split; [exact H1|].
  intros q. rewrite H2, elem_of_cons, IH2. reflexivity.
Qed.

Lemma count_of_nonneg (s : string) (rows : list Measurement) : 0 <= count_of s rows.
Proof. unfold count_of. lia. Qed.

Lemma count_of_positive (s : string) (rows : list Measurement) :
  0 < count_of s rows <-> exists r, r ∈ rows /\ station r = s.
Proof.
  unfold count_of. split.
  - intros H.
    destruct (List.filter (fun r => String.eqb (station r) s) rows) as [|r l] eqn:E;
      [simpl in H; lia|].
    assert (Hin : In r (List.filter (fun r => String.eqb (station r) s) rows))
      by (rewrite E; left; reflexivity).
    apply filter_In in Hin. destruct Hin as [Hin Hs].
    exists r. split; [now apply list_elem_of_In | now apply String.eqb_eq].
  - intros [r [Hin Hs]].
    assert (Hin' : In r (List.filter (fun r => String.eqb (station r) s) rows)).
    { apply filter_In. split; [now apply list_elem_of_In | now apply String.eqb_eq]. }
    destruct (List.filter _ rows); [inversion Hin' | simpl; lia].
Qed.

Lemma stations_by_count_head (rows : list Measurement) :
  rows <> [] ->
  exists s n rest,
    stations_by_count rows = (s, n) :: rest
    /\ n = count_of s rows
    /\ (exists r, r ∈ rows /\ station r = s)
    /\ forall s', count_of s' rows <= count_of s rows.
Proof.
  intros Hne. unfold stations_by_count.
  destruct (sort_desc_count_spec (group_count rows)) as [Hmax Hmem].
  destruct (sort_desc_count (group_count rows)) as [|[s n] rest] eqn:Es.
  - exfalso. destruct rows as [|r rows]; [congruence|].
    assert (Hpos : 0 < count_of (station r) (r :: rows))
      by (apply count_of_positive; exists r; split; [left | reflexivity]).
    rewrite <- assoc_group_count in Hpos.
    assert (Hin : (station r, assoc (station r) (group_count (r :: rows)))
                  ∈ group_count (r :: rows)) by (apply entry_of_assoc; lia).
    apply Hmem in Hin. inversion Hin.
  - assert (Hn : n = count_of s rows).
    { rewrite <- assoc_group_count. symmetry.
      apply assoc_of_entry; [apply group_count_keys|]. apply Hmem. left. }
    assert (Hbound : forall s', count_of s' rows <= n).
    { intros s'. destruct (Z.eq_dec (count_of s' rows) 0) as [E0|E0].
      - rewrite E0, Hn. apply count_of_nonneg.
      - rewrite <- assoc_group_count in E0.
        apply entry_of_assoc in E0. apply Hmem in E0.
        specialize (Hmax _ E0). simpl in Hmax.
        now rewrite assoc_group_count in Hmax. }
    exists s, n, rest. repeat split; try assumption.
    + apply count_of_positive.
      destruct rows as [|r rows]; [congruence|].
      specialize (Hbound (station r)).
      assert (0 < count_of (station r) (r :: rows))
        by (apply count_of_positive; exists r; split; [left | reflexivity]).
      lia.
    + intros s'. rewrite <- Hn. apply Hbound.
Qed.

(** C6, as amended: [most_active_station] counts the records of each
    station and returns a station with the highest count; five records of
    A, nine of B and two of C give B.  On a table without records it fails
    with the [IndexError] of subscripting the empty list. *)
Theorem most_active_station_has_highest_count :
  (forall w : world,
     tables w <> [] ->
     exists s,
       fst (most_active_station w) = Ok s
       /\ (exists r, r ∈ tables w /\ station r = s)
       /\ forall s', count_of s' (tables w) <= count_of s (tables w))
  /\ (forall w : world,
        tables w = [] -> fst (most_active_station w) = Raise IndexError)
  /\ count_of "A" activity_rows = 5 /\ count_of "B" activity_rows = 9
  /\ count_of "C" activity_rows = 2
  /\ fst (most_active_station (world_of activity_rows)) = Ok "B".
Proof.
  split; [|split; [|repeat split; vm_compute; reflexivity]].
  - intros w Hne.
    destruct (stations_by_count_head (tables w) Hne)
      as (s & n & rest & Hs & _ & Hr & Hmax).
    exists s. split; [|split; assumption].
    unfold most_active_station, bind, all_station_counts, lift, ret. simpl.
    now rewrite Hs.
  - intros w H. unfold most_active_station, bind, all_station_counts, lift.
    simpl. now rewrite H.
Qed.

Lemma most_active_station_has_highest_count_witness :
  (exists s,
     fst (most_active_station (world_of activity_rows)) = Ok s
     /\ (exists r, r ∈ tables (world_of activity_rows) /\ station r = s)
     /\ forall s', count_of s' (tables (world_of activity_rows))
                   <= count_of s (tables (world_of activity_rows)))
  /\ fst (most_active_station (world_of [])) = Raise IndexError.
Proof.
  split.
  - apply (proj1 most_active_station_has_highest_count (world_of activity_rows)).
    vm_compute. discriminate.
  - apply (proj1 (proj2 most_active_station_has_highest_count) (world_of [])).
    reflexivity.
Defined.

(** C6 as stated fails on the empty table: the failure is an [IndexError],
    which is not a report of missing data. *)
Lemma most_active_station_empty_counterexample :
  fst (most_active_station (world_of [])) = Raise IndexError
  /\ ~ fails_with NoDataError (fst (most_active_station (world_of []))).
Proof.
  assert (H : fst (most_active_station (world_of [])) = Raise IndexError)
    by (vm_compute; reflexivity).
  split; [exact H|]. rewrite H. intros [e [He Hk]].
  inversion He; subst e. discriminate Hk.
Qed.

(** ** The precipitation route *)

Lemma precipitation_dict_snoc (rows : list Measurement) (r : Measurement) :
  precipitation_dict (rows ++ [r])
  = match prcp r with
    | Some p => <[date r := p]> (precipitation_dict rows)
    | None => precipitation_dict rows
    end.
Proof. unfold precipitation_dict. now rewrite foldl_snoc. Qed.

Lemma precipitation_dict_lookup (rows : list Measurement) (d : string) :
  precipitation_dict rows !! d = last (omap (prcp_on d) rows).
Proof.
  induction rows as [|r rows IH] using rev_ind; [reflexivity|].
  rewrite precipitation_dict_snoc, omap_app. simpl. unfold prcp_on at 2.
  destruct (String.eqb_spec (date r) d) as [Hd|Hd].
  - destruct (prcp r) as [p|]; simpl.
    + rewrite last_snoc. subst d. apply lookup_insert_eq.
    + now rewrite app_nil_r.
  - simpl. rewrite app_nil_r.
    destruct (prcp r) as [p|]; [|exact IH].
    rewrite lookup_insert_ne by exact Hd. exact IH.
Qed.

Lemma last_is_Some {A : Type} (l : list A) : is_Some (last l) <-> l <> [].
Proof.
  destruct l as [|x l] using rev_ind.
  - split; [intros [? H]; discriminate H | congruence].
  - rewrite last_snoc. split; [intros _ H; now destruct l | eauto].
Qed.

Lemma precipitation_dict_dom (rows : list Measurement) (d : string) :
  d ∈ dom (precipitation_dict rows)
  <-> exists r, r ∈ rows /\ date r = d /\ prcp r <> None.
Proof.
  rewrite elem_of_dom, precipitation_dict_lookup, last_is_Some. split.
  - intros Hne. destruct (omap (prcp_on d) rows) as [|p l] eqn:E; [congruence|].
    assert (Hp : p ∈ omap (prcp_on d) rows) by (rewrite E; left).
    apply list_elem_of_omap in Hp. destruct Hp as (r & Hr & Hp).
    unfold prcp_on in Hp. destruct (String.eqb_spec (date r) d); [|discriminate].
    exists r. repeat split; [assumption.. | congruence].
  - intros (r & Hr & Hd & Hp) E.
    destruct (prcp r) as [p|] eqn:Ep; [|congruence].
    assert (Hin : p ∈ omap (prcp_on d) rows).
    { apply list_elem_of_omap. exists r. split; [exact Hr|].
      unfold prcp_on. rewrite Hd, String.eqb_refl. exact Ep. }
    rewrite E in Hin. inversion Hin.
Qed.

(** C10: the mapping the precipitation route returns has, for each date,
    the precipitation of the last record of the window, in the order the
    query gave, that carries that date and a precipitation; its keys are
    the dates with at least one such record.  When the window cannot be
    computed the route fails as [year_from_most_recent_data] does. *)
Theorem precipitation_keeps_last_value_per_date (w : world) :
  match fst (year_from_most_recent_data None w) with
  | Ok rows =>
      exists m : gmap string Qc,
        fst (precipitation_vals w) = Ok m
        /\ (forall d, m !! d = last (omap (prcp_on d) rows))
        /\ (forall d, d ∈ dom m
                      <-> exists r, r ∈ rows /\ date r = d /\ prcp r <> None)
  | Raise e => fst (precipitation_vals w) = Raise e
  end.
Proof.
  set (w1 := mk_world (tables w) (journal w ++ [SessionOpened])).
  assert (Hsame : fst (year_from_most_recent_data None w1)
                  = fst (year_from_most_recent_data None w))
    by (apply reads_only_year_from_most_recent_data; reflexivity).
  assert (Hrun : precipitation_vals w
                 = match year_from_most_recent_data None w1 with
                   | (Ok rows, w2) =>
                       (Ok (precipitation_dict rows),
                        mk_world (tables w2) (journal w2 ++ [SessionClosed]))
                   | (Raise e, w2) => (Raise e, w2)
                   end).
  { unfold precipitation_vals, bind, Session, close, record, ret. simpl.
    fold w1. destruct (year_from_most_recent_data None w1) as [[rows|e] w2];
      reflexivity. }
  rewrite Hrun, <- Hsame.
  destruct (year_from_most_recent_data None w1) as [[rows|e] w2]; simpl;
    [|reflexivity].
  exists (precipitation_dict rows). split; [reflexivity|]. split.
  - apply precipitation_dict_lookup.
  - apply precipitation_dict_dom.
Qed.

Example precipitation_vals_sample :
  exists m : gmap string Qc,
    fst (precipitation_vals (world_of window_rows)) = Ok m
    /\ m !! "2017-08-23" = Some (Qc_dec 5 1)
    /\ m !! "2016-08-24" = Some (Qc_dec 4 1)
    /\ m !! "2016-08-23" = None.
Proof.
  eexists. split; [vm_compute; reflexivity|].
  repeat split; vm_compute; reflexivity.
Qed.

(** * Further properties of the source *)

(** ** What [validate_date] lets through and what it raises *)

Lemma re_match_date_inv (s : string) :
  re_match date_regex s = true ->
  exists (y1 y2 y3 y4 m1 m2 d1 d2 : ascii) (rest : string),
    s = ymd_string y1 y2 y3 y4 m1 m2 d1 d2 +:+ rest
    /\ is_digit y1 = true /\ is_digit y2 = true /\ is_digit y3 = true
    /\ is_digit y4 = true /\ is_digit m1 = true /\ is_digit m2 = true
    /\ is_digit d1 = true /\ is_digit d2 = true.
Proof.
  unfold date_regex. simpl.
  destruct s as [|y1 [|y2 [|y3 [|y4 [|h1 [|m1 [|m2 [|h2 [|d1 [|d2 rest]]]]]]]]]];
    simpl; try (rewrite ?andb_false_r; discriminate).
  intros H. repeat (apply andb_prop in H; destruct H as [? H]).
  repeat match goal with
         | E : Ascii.eqb _ _ = true |- _ => apply Ascii.eqb_eq in E; subst
         end.
  exists y1, y2, y3, y4, m1, m2, d1, d2, rest.
  repeat split; assumption.
Qed.

Lemma split_nonempty (sep : ascii) (s : string) :
  exists p ps, split sep s = p :: ps.
Proof.
  induction s as [|c s (p & ps & IH)]; simpl; [eauto|].
  destruct (Ascii.eqb c sep); [eauto|]. rewrite IH. eauto.
Qed.

Lemma split_ymd_rest (y1 y2 y3 y4 m1 m2 d1 d2 : ascii) (rest : string) :
  is_digit y1 = true -> is_digit y2 = true -> is_digit y3 = true ->
  is_digit y4 = true -> is_digit m1 = true -> is_digit m2 = true ->
  is_digit d1 = true -> is_digit d2 = true ->
  exists p ps,
    split "-" rest = p :: ps
    /\ split "-" (ymd_string y1 y2 y3 y4 m1 m2 d1 d2 +:+ rest)
       = String y1 (String y2 (String y3 (String y4 EmptyString)))
         :: String m1 (String m2 EmptyString)
         :: String d1 (String d2 p) :: ps.
Proof.
  intros H1 H2 H3 H4 H5 H6 H7 H8.
  destruct (split_nonempty "-" rest) as (p & ps & Hs).
  exists p, ps. split; [exact Hs|].
  change (ymd_string y1 y2 y3 y4 m1 m2 d1 d2 +:+ rest)
    with (String y1 (String y2 (String y3 (String y4 (String "-"
           (String m1 (String m2 (String "-" (String d1 (String d2 rest)))))))))).
  simpl.
  destruct (digit_facts _ H1) as (_ & -> & _).
  destruct (digit_facts _ H2) as (_ & -> & _).
  destruct (digit_facts _ H3) as (_ & -> & _).
  destruct (digit_facts _ H4) as (_ & -> & _).
  destruct (digit_facts _ H5) as (_ & -> & _).
  destruct (digit_facts _ H6) as (_ & -> & _).
  destruct (digit_facts _ H7) as (_ & -> & _).
  destruct (digit_facts _ H8) as (_ & -> & _).
  rewrite Hs. reflexivity.
Qed.

(** Once the pattern has matched, the list of numbers starts with the
    year and the month written in the text and has a third entry. *)
Lemma date_string_to_nums_shape (y1 y2 y3 y4 m1 m2 d1 d2 : ascii) (rest : string)
  (l : list Z) :
  is_digit y1 = true -> is_digit y2 = true -> is_digit y3 = true ->
  is_digit y4 = true -> is_digit m1 = true -> is_digit m2 = true ->
  is_digit d1 = true -> is_digit d2 = true ->
  date_string_to_nums (ymd_string y1 y2 y3 y4 m1 m2 d1 d2 +:+ rest) = Ok l ->
  exists d tail,
    l = (1000 * digit_val y1 + 100 * digit_val y2 + 10 * digit_val y3 + digit_val y4)
        :: (10 * digit_val m1 + digit_val m2) :: d :: tail.
Proof.
  intros H1 H2 H3 H4 H5 H6 H7 H8. unfold date_string_to_nums.
  destruct (split_ymd_rest y1 y2 y3 y4 m1 m2 d1 d2 rest H1 H2 H3 H4 H5 H6 H7 H8)
    as (p & ps & _ & ->).
  simpl.
  rewrite !int_of_digits by (try discriminate; repeat constructor; assumption).
  simpl.
  destruct (int (String d1 (String d2 p))) as [d|e]; simpl; [|discriminate].
  destruct (omapM int ps) as [tail|e]; simpl; [|discriminate].
  intros H. inversion H; subst l. exists d, tail.
  unfold digits_value. simpl. repeat f_equal; lia.
Qed.

Lemma days_in_month_gregorian (y m : Z) :
  1 <= m <= 12 -> gregorian_month_length y m (days_in_month y m).
Proof.
  intros Hm. unfold gregorian_month_length, gregorian_leap, days_in_month, is_leap.
  assert (Hcases : m = 1 \/ m = 2 \/ m = 3 \/ m = 4 \/ m = 5 \/ m = 6 \/ m = 7
                   \/ m = 8 \/ m = 9 \/ m = 10 \/ m = 11 \/ m = 12) by lia.
  destruct (Z.eqb_spec (y mod 4) 0) as [E4|E4];
    destruct (Z.eqb_spec (y mod 100) 0) as [E100|E100];
    destruct (Z.eqb_spec (y mod 400) 0) as [E400|E400];
    repeat (destruct Hcases as [-> | Hcases]); try subst m; simpl; lia.
Qed.

(** What a successful [datetime] construction guarantees. *)
Lemma datetime_new_ok (args : list Z) (dt : datetime) :
  datetime_new args = Ok dt ->
  (3 <= length args <= 7)%nat
  /\ fields dt = take 7 (args ++ [0; 0; 0; 0])
  /\ 1 <= year dt <= 9999 /\ 1 <= month dt <= 12
  /\ 1 <= day dt <= days_in_month (year dt) (month dt)
  /\ 0 <= hour dt <= 23 /\ 0 <= minute dt <= 59 /\ 0 <= second dt <= 59
  /\ 0 <= microsecond dt <= 999999.
Proof.
  unfold datetime_new, between. intros H.
  repeat match type of H with
         | (if ?b then _ else _) = _ => destruct b eqn:?; [discriminate H|]
         end.
  inversion H; subst dt; simpl.
  assert (Hlen : (3 <= length args <= 7)%nat).
  { repeat match goal with
           | E : _ || _ = false |- _ => apply orb_false_elim in E; destruct E
           end.
    repeat match goal with
           | E : (_ <? _)%nat = false |- _ => apply Nat.ltb_ge in E
           | E : (_ =? _)%nat = false |- _ => apply Nat.eqb_neq in E
           end. lia. }
  split; [exact Hlen|]. split.
  - destruct args as [|a0 [|a1 [|a2 [|a3 [|a4 [|a5 [|a6 [|a7 args]]]]]]]];
      simpl in Hlen; try lia; reflexivity.
  - repeat match goal with
           | E : negb _ = false |- _ => apply negb_false_iff in E
           end. lia.
Qed.

Lemma validate_date_ok_inv (s : string) (dt : datetime) :
  validate_date (PyStr s) = Ok dt ->
  re_match date_regex s = true
  /\ exists l, date_string_to_nums s = Ok l /\ datetime_new l = Ok dt.
Proof.
  unfold validate_date.
  destruct (re_match date_regex s); simpl; [|discriminate].
  destruct (date_string_to_nums s) as [l|e]; simpl; [|discriminate].
  destruct (index l 0) as [y|e]; simpl; [|discriminate].
  destruct (index l 1) as [m|e]; simpl; [|discriminate].
  destruct ((m >? 12) || (m <? 1)); [discriminate|].
  destruct (index l 2) as [d|e]; simpl; [|discriminate].
  destruct (getitem _ (pretty m)) as [len|e]; simpl; [|discriminate].
  destruct ((d >? len) || (d <? 1)); [discriminate|].
  intros H. split; [reflexivity|]. now exists l.
Qed.

(** X1: [validate_date] returns real calendar dates only: the year and the
    month are the ones written at the start of the text, the year is in
    1..9999, the month in 1..12, the day within the month's Gregorian
    length, and the time of day is a valid one. *)
Theorem validate_date_sound (s : string) (dt : datetime) :
  validate_date (PyStr s) = Ok dt ->
  (exists (y1 y2 y3 y4 m1 m2 d1 d2 : ascii) (rest : string),
     s = ymd_string y1 y2 y3 y4 m1 m2 d1 d2 +:+ rest
     /\ year dt = 1000 * digit_val y1 + 100 * digit_val y2
                  + 10 * digit_val y3 + digit_val y4
     /\ month dt = 10 * digit_val m1 + digit_val m2)
  /\ 1 <= year dt <= 9999 /\ 1 <= month dt <= 12
  /\ (exists len, gregorian_month_length (year dt) (month dt) len
                  /\ 1 <= day dt <= len)
  /\ 0 <= hour dt <= 23 /\ 0 <= minute dt <= 59 /\ 0 <= second dt <= 59
  /\ 0 <= microsecond dt <= 999999.
Proof.
  intros H. destruct (validate_date_ok_inv s dt H) as (Hre & l & Hl & Hnew).
  destruct (datetime_new_ok l dt Hnew)
    as (Hlen & Hf & Hy & Hm & Hd & Hh & Hmi & Hs & Hus).
  split; [|repeat split; try lia].
  - destruct (re_match_date_inv s Hre)
      as (y1 & y2 & y3 & y4 & m1 & m2 & d1 & d2 & rest & -> & H1 & H2 & H3 & H4
          & H5 & H6 & H7 & H8).
    destruct (date_string_to_nums_shape _ _ _ _ _ _ _ _ _ _ H1 H2 H3 H4 H5 H6 H7 H8 Hl)
      as (d & tail & ->).
    exists y1, y2, y3, y4, m1, m2, d1, d2, rest.
    split; [reflexivity|]. unfold fields in Hf. simpl in Hf.
    inversion Hf. split; reflexivity.
  - exists (days_in_month (year dt) (month dt)). split; [|lia].
    now apply days_in_month_gregorian.
Qed.

Lemma validate_date_sound_witness :
  (exists (y1 y2 y3 y4 m1 m2 d1 d2 : ascii) (rest : string),
     "2024-02-29" = ymd_string y1 y2 y3 y4 m1 m2 d1 d2 +:+ rest
     /\ year (mk_datetime 2024 2 29 0 0 0 0)
        = 1000 * digit_val y1 + 100 * digit_val y2 + 10 * digit_val y3 + digit_val y4
     /\ month (mk_datetime 2024 2 29 0 0 0 0) = 10 * digit_val m1 + digit_val m2)
  /\ 1 <= year (mk_datetime 2024 2 29 0 0 0 0) <= 9999
  /\ 1 <= month (mk_datetime 2024 2 29 0 0 0 0) <= 12
  /\ (exists len,
        gregorian_month_length (year (mk_datetime 2024 2 29 0 0 0 0))
                               (month (mk_datetime 2024 2 29 0 0 0 0)) len
        /\ 1 <= day (mk_datetime 2024 2 29 0 0 0 0) <= len)
  /\ 0 <= hour (mk_datetime 2024 2 29 0 0 0 0) <= 23
  /\ 0 <= minute (mk_datetime 2024 2 29 0 0 0 0) <= 59
  /\ 0 <= second (mk_datetime 2024 2 29 0 0 0 0) <= 59
  /\ 0 <= microsecond (mk_datetime 2024 2 29 0 0 0 0) <= 999999.
Proof.
  apply (validate_date_sound "2024-02-29" (mk_datetime 2024 2 29 0 0 0 0)).
  vm_compute. reflexivity.
Defined.

Lemma getitem_month_lengths (y m : Z) :
  1 <= m <= 12 ->
  getitem
    (if (y mod 4 =? 0)
        && (((y mod 100 =? 0) && (y mod 400 =? 0)) || negb (y mod 100 =? 0))
     then <["2" := 29]> month_lengths else month_lengths) (pretty m)
  = Ok (days_in_month y m).
Proof.
  intros Hm.
  apply (month_lengths_lookup y m (days_in_month y m) Hm).
  now apply days_in_month_gregorian.
Qed.

(** X2: On a string, [validate_date] fails in six ways only: its own three
    exceptions for the format, the month and the day, and the
    [ValueError], [TypeError] or [OverflowError] of [int] and [datetime].
    The subscripts of the list of numbers and of the table of month lengths
    never fail. *)
Theorem validate_date_failures (s : string) (e : exn) :
  validate_date (PyStr s) = Raise e ->
  e = Exception msg_format \/ e = Exception msg_month \/ e = Exception msg_day
  \/ e = ValueError \/ e = TypeError \/ e = OverflowError.
Proof.
  unfold validate_date.
  destruct (re_match date_regex s) eqn:Hre; simpl;
    [|intros H; inversion H; auto].
  destruct (re_match_date_inv s Hre)
    as (y1 & y2 & y3 & y4 & m1 & m2 & d1 & d2 & rest & -> & H1 & H2 & H3 & H4
        & H5 & H6 & H7 & H8).
  destruct (date_string_to_nums _) as [l|e'] eqn:El; simpl.
  2:{ apply date_string_to_nums_raises in El. intros H. inversion H; subst. auto 6. }
  destruct (date_string_to_nums_shape _ _ _ _ _ _ _ _ _ _ H1 H2 H3 H4 H5 H6 H7 H8 El)
    as (d & tail & ->).
  simpl.
  set (y := 1000 * digit_val y1 + 100 * digit_val y2 + 10 * digit_val y3 + digit_val y4).
  set (m := 10 * digit_val m1 + digit_val m2).
  destruct ((m >? 12) || (m <? 1)) eqn:Em; [intros H; inversion H; auto|].
  rewrite getitem_month_lengths by lia. simpl.
  destruct ((d >? days_in_month y m) || (d <? 1)); [intros H; inversion H; auto|].
  intros H. apply datetime_new_raises in H. intuition.
Qed.

Lemma validate_date_failures_witness :
  ValueError = Exception msg_format \/ ValueError = Exception msg_month
  \/ ValueError = Exception msg_day
  \/ ValueError = ValueError \/ ValueError = TypeError \/ ValueError = OverflowError.
Proof.
  apply (validate_date_failures "2020-01-01-extra-junk" ValueError).
  vm_compute. reflexivity.
Defined.

(** X3: A text of eight digits in the shape YYYY-MM-DD whose month is 00 or
    above 12 is refused with the exception for the month, whatever its year
    and day. *)
Theorem validate_date_rejects_month (y1 y2 y3 y4 m1 m2 d1 d2 : ascii) :
  is_digit y1 = true -> is_digit y2 = true -> is_digit y3 = true ->
  is_digit y4 = true -> is_digit m1 = true -> is_digit m2 = true ->
  is_digit d1 = true -> is_digit d2 = true ->
  10 * digit_val m1 + digit_val m2 = 0 \/ 12 < 10 * digit_val m1 + digit_val m2 ->
  validate_date (PyStr (ymd_string y1 y2 y3 y4 m1 m2 d1 d2))
  = Raise (Exception msg_month).
Proof.
  intros H1 H2 H3 H4 H5 H6 H7 H8 Hm. unfold validate_date.
  assert (Hre : re_match date_regex (ymd_string y1 y2 y3 y4 m1 m2 d1 d2) = true)
    by exact (re_match_ymd y1 y2 y3 y4 m1 m2 d1 d2 EmptyString
                H1 H2 H3 H4 H5 H6 H7 H8).
  rewrite Hre, date_string_to_nums_ymd by assumption. simpl.
  now replace ((10 * digit_val m1 + digit_val m2 >? 12)
               || (10 * digit_val m1 + digit_val m2 <? 1)) with true by lia.
Qed.

Lemma validate_date_rejects_month_witness :
  validate_date (PyStr (ymd_string "2" "0" "2" "0" "1" "3" "0" "1"))
  = Raise (Exception msg_month).
Proof.
  apply (validate_date_rejects_month "2" "0" "2" "0" "1" "3" "0" "1");
    try reflexivity. right. vm_compute. reflexivity.
Defined.

(** X4: A text of eight digits in the shape YYYY-MM-DD whose month exists and
    whose day is 00 or beyond the length of the month is refused with the
    exception for the day; this holds for the year 0000 as well. *)
Theorem validate_date_rejects_day
  (y1 y2 y3 y4 m1 m2 d1 d2 : ascii) (len : Z) :
  is_digit y1 = true -> is_digit y2 = true -> is_digit y3 = true ->
  is_digit y4 = true -> is_digit m1 = true -> is_digit m2 = true ->
  is_digit d1 = true -> is_digit d2 = true ->
  1 <= 10 * digit_val m1 + digit_val m2 <= 12 ->
  gregorian_month_length
    (1000 * digit_val y1 + 100 * digit_val y2 + 10 * digit_val y3 + digit_val y4)
    (10 * digit_val m1 + digit_val m2) len ->
  10 * digit_val d1 + digit_val d2 = 0 \/ len < 10 * digit_val d1 + digit_val d2 ->
  validate_date (PyStr (ymd_string y1 y2 y3 y4 m1 m2 d1 d2))
  = Raise (Exception msg_day).
Proof.
  intros H1 H2 H3 H4 H5 H6 H7 H8 Hm Hlen Hd. unfold validate_date.
  assert (Hre : re_match date_regex (ymd_string y1 y2 y3 y4 m1 m2 d1 d2) = true)
    by exact (re_match_ymd y1 y2 y3 y4 m1 m2 d1 d2 EmptyString
                H1 H2 H3 H4 H5 H6 H7 H8).
  rewrite Hre, date_string_to_nums_ymd by assumption. simpl.
  replace ((10 * digit_val m1 + digit_val m2 >? 12)
           || (10 * digit_val m1 + digit_val m2 <? 1)) with false by lia.
  destruct (month_lengths_lookup _ _ len Hm Hlen) as [-> _]. simpl.
  now replace ((10 * digit_val d1 + digit_val d2 >? len)
               || (10 * digit_val d1 + digit_val d2 <? 1)) with true by lia.
Qed.

Lemma validate_date_rejects_day_witness :
  validate_date (PyStr (ymd_string "0" "0" "0" "0" "0" "2" "3" "0"))
  = Raise (Exception msg_day).
Proof.
  apply (validate_date_rejects_day "0" "0" "0" "0" "0" "2" "3" "0" 29);
    try reflexivity; vm_compute; intuition congruence.
Defined.

(** X5: A text of fewer than ten characters is refused with the exception for
    the format. *)
Theorem validate_date_rejects_short_text (s : string) :
  (String.length s < 10)%nat ->
  validate_date (PyStr s) = Raise (Exception msg_format).
Proof.
  intros Hlen. unfold validate_date.
  destruct (re_match date_regex s) eqn:Hre; [|reflexivity].
  exfalso.
  destruct (re_match_date_inv s Hre)
    as (y1 & y2 & y3 & y4 & m1 & m2 & d1 & d2 & rest & -> & _).
  change (ymd_string y1 y2 y3 y4 m1 m2 d1 d2 +:+ rest)
    with (String y1 (String y2 (String y3 (String y4 (String "-"
           (String m1 (String m2 (String "-" (String d1 (String d2 rest))))))))))
    in Hlen.
  simpl in Hlen. lia.
Qed.

Lemma validate_date_rejects_short_text_witness :
  validate_date (PyStr "2020-1-1") = Raise (Exception msg_format).
Proof.
  apply (validate_date_rejects_short_text "2020-1-1"). vm_compute. lia.
Defined.

Lemma date_string_to_nums_ymdh (y1 y2 y3 y4 m1 m2 d1 d2 h1 h2 : ascii) :
  is_digit y1 = true -> is_digit y2 = true -> is_digit y3 = true ->
  is_digit y4 = true -> is_digit m1 = true -> is_digit m2 = true ->
  is_digit d1 = true -> is_digit d2 = true ->
  is_digit h1 = true -> is_digit h2 = true ->
  date_string_to_nums
    (ymd_string y1 y2 y3 y4 m1 m2 d1 d2 +:+ String "-" (String h1 (String h2 "")))
  = Ok [1000 * digit_val y1 + 100 * digit_val y2 + 10 * digit_val y3 + digit_val y4;
        10 * digit_val m1 + digit_val m2; 10 * digit_val d1 + digit_val d2;
        10 * digit_val h1 + digit_val h2].
Proof.
  intros H1 H2 H3 H4 H5 H6 H7 H8 H9 H10. unfold date_string_to_nums.
  destruct (split_ymd_rest y1 y2 y3 y4 m1 m2 d1 d2
              (String "-" (String h1 (String h2 ""))) H1 H2 H3 H4 H5 H6 H7 H8)
    as (p & ps & Hs & ->).
  simpl in Hs.
  destruct (digit_facts _ H9) as (_ & E9 & _).
  destruct (digit_facts _ H10) as (_ & E10 & _).
  rewrite E9, E10 in Hs. inversion Hs; subst p ps. simpl.
  rewrite !int_of_digits by (try discriminate; repeat constructor; assumption).
  simpl. unfold digits_value. simpl. repeat f_equal; lia.
Qed.

(** X6: The validator lets a fourth number through: a calendar date followed
    by a dash and two digits that make an hour is accepted, and the datetime
    returned carries that hour. *)
Theorem validate_date_accepts_hour_suffix
  (y1 y2 y3 y4 m1 m2 d1 d2 h1 h2 : ascii) (len : Z) :
  is_digit y1 = true -> is_digit y2 = true -> is_digit y3 = true ->
  is_digit y4 = true -> is_digit m1 = true -> is_digit m2 = true ->
  is_digit d1 = true -> is_digit d2 = true ->
  is_digit h1 = true -> is_digit h2 = true ->
  let y := 1000 * digit_val y1 + 100 * digit_val y2
           + 10 * digit_val y3 + digit_val y4 in
  let m := 10 * digit_val m1 + digit_val m2 in
  let d := 10 * digit_val d1 + digit_val d2 in
  let h := 10 * digit_val h1 + digit_val h2 in
  1 <= y -> 1 <= m <= 12 -> gregorian_month_length y m len -> 1 <= d <= len ->
  h <= 23 ->
  validate_date
    (PyStr (ymd_string y1 y2 y3 y4 m1 m2 d1 d2
            +:+ String "-" (String h1 (String h2 ""))))
  = Ok (mk_datetime y m d h 0 0 0).
Proof.
  intros H1 H2 H3 H4 H5 H6 H7 H8 H9 H10 y m d h Hy Hm Hlen Hd Hh.
  destruct (month_lengths_lookup y m len Hm Hlen) as [Hget Hdim].
  pose proof (digit_facts _ H1) as (_ & _ & _ & ?).
  pose proof (digit_facts _ H2) as (_ & _ & _ & ?).
  pose proof (digit_facts _ H3) as (_ & _ & _ & ?).
  pose proof (digit_facts _ H4) as (_ & _ & _ & ?).
  pose proof (digit_facts _ H9) as (_ & _ & _ & ?).
  pose proof (digit_facts _ H10) as (_ & _ & _ & ?).
  assert (Hlen' : 28 <= len <= 31)
    by (unfold gregorian_month_length in Hlen; lia).
  unfold validate_date.
  rewrite re_match_ymd, date_string_to_nums_ymdh by assumption. simpl.
  fold y m d h.
  replace ((m >? 12) || (m <? 1)) with false by lia.
  rewrite Hget. simpl.
  replace ((d >? len) || (d <? 1)) with false by lia.
  unfold datetime_new. simpl. unfold c_int, between. rewrite Hdim.
  replace ((-2147483648 <=? y) && (y <=? 2147483647)) with true by lia.
  replace ((-2147483648 <=? m) && (m <=? 2147483647)) with true by lia.
  replace ((-2147483648 <=? d) && (d <=? 2147483647)) with true by lia.
  replace ((-2147483648 <=? h) && (h <=? 2147483647)) with true by lia.
  replace ((1 <=? y) && (y <=? 9999)) with true by lia.
  replace ((1 <=? m) && (m <=? 12)) with true by lia.
  replace ((1 <=? d) && (d <=? len)) with true by lia.
  replace ((0 <=? h) && (h <=? 23)) with true by lia.
  reflexivity.
Qed.

Lemma validate_date_accepts_hour_suffix_witness :
  validate_date
    (PyStr (ymd_string "2" "0" "2" "0" "0" "1" "0" "1"
            +:+ String "-" (String "0" (String "5" ""))))
  = Ok (mk_datetime 2020 1 1 5 0 0 0).
Proof.
  apply (validate_date_accepts_hour_suffix
           "2" "0" "2" "0" "0" "1" "0" "1" "0" "5" 31);
    try reflexivity; vm_compute; intuition congruence.
Defined.

(** ** [date_string_to_nums] *)

Lemma split_pieces_free (sep : ascii) (s : string) :
  Forall (fun p => ~ In sep (list_ascii_of_string p)) (split sep s).
Proof.
  induction s as [|c s IH]; simpl; [repeat constructor; auto|].
  destruct (Ascii.eqb_spec c sep) as [->|Hne].
  - constructor; [simpl; auto | exact IH].
  - destruct (split sep s) as [|p ps]; [repeat constructor; simpl; intuition|].
    inversion IH; subst. constructor; [|assumption].
    simpl. intros [E|E]; [congruence | auto].
Qed.

Lemma lstrip_chars (c : ascii) (s : string) :
  In c (list_ascii_of_string (lstrip s)) -> In c (list_ascii_of_string s).
Proof.
  induction s as [|x s IH]; simpl; [auto|].
  destruct (is_space x); simpl; auto.
Qed.

Lemma rstrip_chars (c : ascii) (s : string) :
  In c (list_ascii_of_string (rstrip s)) -> In c (list_ascii_of_string s).
Proof.
  induction s as [|x s IH]; simpl; [auto|].
  destruct (rstrip s) as [|y t].
  - destruct (is_space x); simpl; intuition.
  - simpl in *. intuition.
Qed.

Lemma int_digits_nonneg (s : string) (acc : Z) (seen : bool) (z : Z) :
  0 <= acc -> int_digits acc seen s = Some z -> 0 <= z.
Proof.
  revert acc seen. induction s as [|c s IH]; intros acc seen Hacc; simpl.
  - destruct seen; [|discriminate]. intros H. inversion H. subst. exact Hacc.
  - destruct (is_digit c) eqn:Hc.
    + apply IH. destruct (digit_facts c Hc) as (_ & _ & _ & ?). lia.
    + destruct (Ascii.eqb c "_" && seen); [|discriminate]. now apply IH.
Qed.

Lemma int_nonneg (s : string) (z : Z) :
  ~ In "-"%char (list_ascii_of_string s) -> int s = Ok z -> 0 <= z.
Proof.
  intros Hfree. unfold int.
  assert (Hfree' : ~ In "-"%char (list_ascii_of_string (strip s))).
  { intros H. apply Hfree. unfold strip in H.
    now apply lstrip_chars, rstrip_chars. }
  destruct (strip s) as [|c r]; [simpl; discriminate|].
  destruct (Ascii.eqb_spec c "-") as [->|Hne]; [exfalso; apply Hfree'; now left|].
  assert (Hbody : match String c r with
                  | String "+" r' => int_digits 0 false r'
                  | String "-" r' => Z.opp <$> int_digits 0 false r'
                  | r' => int_digits 0 false r'
                  end = int_digits 0 false r
                  \/ match String c r with
                     | String "+" r' => int_digits 0 false r'
                     | String "-" r' => Z.opp <$> int_digits 0 false r'
                     | r' => int_digits 0 false r'
                     end = int_digits 0 false (String c r)).
  { clear - Hne. destruct c as [[] [] [] [] [] [] [] []];
      try (right; reflexivity); try (left; reflexivity); congruence. }
  destruct Hbody as [-> | ->].
  - destruct (int_digits 0 false r) as [z'|] eqn:E; [|discriminate].
    intros H. inversion H; subst. apply (int_digits_nonneg _ _ _ _ (Z.le_refl 0) E).
  - destruct (int_digits 0 false (String c r)) as [z'|] eqn:E; [|discriminate].
    intros H. inversion H; subst. apply (int_digits_nonneg _ _ _ _ (Z.le_refl 0) E).
Qed.

(** X7: The numbers [date_string_to_nums] returns are as many as the pieces
    between the dashes, and none is negative: a dash never reaches [int]
    as a sign. *)
Theorem date_string_to_nums_nonnegative (s : string) (l : list Z) :
  date_string_to_nums s = Ok l ->
  length l = length (split "-" s) /\ Forall (fun z => 0 <= z) l.
Proof.
  unfold date_string_to_nums. pose proof (split_pieces_free "-" s) as Hfree.
  revert l. induction (split "-" s) as [|p ps IH]; intros l; simpl.
  - intros H. inversion H. split; [reflexivity | constructor].
  - inversion Hfree as [|? ? Hp Hps]; subst.
    destruct (int p) as [z|e] eqn:Ep; simpl; [|discriminate].
    destruct (omapM int ps) as [zs|e]; simpl; [|discriminate].
    intros H. inversion H; subst l. destruct (IH Hps zs eq_refl) as [IH1 IH2].
    split; [simpl; now rewrite IH1|]. constructor; [|exact IH2].
    now apply (int_nonneg p).
Qed.

Lemma date_string_to_nums_nonnegative_witness :
  length [2017; 8; 23] = length (split "-" "2017-08-23")
  /\ Forall (fun z => 0 <= z) [2017; 8; 23].
Proof.
  apply (date_string_to_nums_nonnegative "2017-08-23" [2017; 8; 23]).
  reflexivity.
Defined.

(** ** More on [calculate_range_metrics] *)


Lemma leb_trans (a b c : string) :
  String.leb a b = true -> String.leb b c = true -> String.leb a c = true.
Proof.
  intros H1 H2. apply Is_true_true.
  apply (@transitivity _ String.le _ a b c); now apply Is_true_true.
Qed.

(** X9: The bounds are compared as texts: when the end text is below the start
    text no record is in range, and the three metrics are NaN. *)
Theorem range_metrics_of_inverted_bounds {FM : FloatMean}
  (start e : string) (w : world) :
  String.leb start e = false ->
  fst (calculate_range_metrics start (Some e) w) = Ok (mk_metrics NaN NaN NaN).
Proof.
  intros H. rewrite calculate_range_metrics_run. simpl.
  assert (Hnone : List.filter (remains start (Some e)) (tables w) = []);
    [|now rewrite Hnone].
  induction (tables w) as [|r rows IH]; [reflexivity|]. simpl.
  unfold remains at 1, in_range.
  destruct (String.leb start (date r)) eqn:E1; simpl; [|exact IH].
  destruct (String.leb (date r) e) eqn:E2; simpl; [|exact IH].
  rewrite (leb_trans _ _ _ E1 E2) in H. discriminate H.
Qed.

Lemma range_metrics_of_inverted_bounds_witness :
  fst (calculate_range_metrics (FM := exact_mean) "2020-01-02"
         (Some "2020-01-011") (world_of sample_rows))
  = Ok (mk_metrics NaN NaN NaN).
Proof.
  apply (range_metrics_of_inverted_bounds (FM := exact_mean)
           "2020-01-02" "2020-01-011" (world_of sample_rows)).
  reflexivity.
Defined.

Lemma filter_ext_in_bool {A : Type} (f g : A -> bool) (l : list A) :
  (forall x, In x l -> f x = g x) -> List.filter f l = List.filter g l.
Proof.
  induction l as [|x l IH]; intros H; [reflexivity|]. simpl.
  rewrite (H x) by now left. rewrite IH; [reflexivity|].
  intros y Hy. apply H. now right.
Qed.

(** X10: An end bound at or above every date of the table changes nothing: the
    metrics are those of the call without an end. *)
Theorem range_metrics_end_above_all_dates {FM : FloatMean}
  (start e : string) (w : world) :
  (forall r, In r (tables w) -> String.leb (date r) e = true) ->
  fst (calculate_range_metrics start (Some e) w)
  = fst (calculate_range_metrics start None w).
Proof.
  intros H. rewrite !calculate_range_metrics_run. simpl.
  replace (List.filter (remains start (Some e)) (tables w))
    with (List.filter (remains start None) (tables w)); [reflexivity|].
  apply filter_ext_in_bool. intros r Hr. unfold remains, in_range.
  now rewrite (H r Hr).
Qed.

Lemma range_metrics_end_above_all_dates_witness :
  fst (calculate_range_metrics (FM := exact_mean) "2020-01-01"
         (Some "2020-12-31") (world_of sample_rows))
  = fst (calculate_range_metrics (FM := exact_mean) "2020-01-01" None
           (world_of sample_rows)).
Proof.
  apply (range_metrics_end_above_all_dates (FM := exact_mean)
           "2020-01-01" "2020-12-31" (world_of sample_rows)).
  intros r Hr. simpl in Hr.
  destruct Hr as [<-|[<-|[<-|[]]]]; reflexivity.
Defined.

(** ** The two range routes *)

Lemma calculate_range_metrics_full {FM : FloatMean}
  (start : string) (end_ : option string) (w : world) :
  let col := tobs <$> List.filter (remains start end_) (tables w) in
  calculate_range_metrics start end_ w
  = (Ok (mk_metrics (series_min col) (series_mean col) (series_max col)),
     mk_world (tables w)
       (journal w
        ++ [Executed
              (SelectAll
                 match end_ with
                 | Some e => filter_by (filter_by query_measurement
                                                  (DateGe (BindStr start)))
                                       (DateLe (BindStr e))
                 | None => filter_by query_measurement (DateGe (BindStr start))
                 end)])).
Proof.
  pose proof (calculate_range_metrics_run start end_ w) as H.
  cbv zeta in *.
  destruct (calculate_range_metrics start end_ w) as [o w'] eqn:E.
  cbn [fst] in H. rewrite H. f_equal.
  unfold calculate_range_metrics, bind, all, ret in E.
  destruct end_; simpl in E; inversion E; reflexivity.
Qed.

(** X11: [from_date_metrics]: a text that [validate_date] refuses ends the
    route with that exception before a session exists; otherwise the route
    opens a session, runs the one query of [calculate_range_metrics] with
    the text as it came, closes the session and returns the metrics. *)
Theorem from_date_metrics_run {FM : FloatMean} (start : string) (w : world) :
  match validate_date (PyStr start) with
  | Ok _ =>
      exists m,
        fst (calculate_range_metrics start None w) = Ok m
        /\ from_date_metrics start w
           = (Ok m,
              mk_world (tables w)
                (journal w
                 ++ [SessionOpened;
                     Executed (SelectAll (filter_by query_measurement
                                            (DateGe (BindStr start))));
                     SessionClosed]))
  | Raise e => from_date_metrics start w = (Raise e, w)
  end.
Proof.
  unfold from_date_metrics, bind, lift.
  destruct (validate_date (PyStr start)) as [d|e]; [|reflexivity].
  eexists. split; [apply calculate_range_metrics_run|].
  unfold Session, close, record, ret.
  rewrite calculate_range_metrics_full. simpl.
  now rewrite <- !app_assoc.
Qed.

(** X12: [date_range_metrics] with two accepted texts whose dates are in order:
    one session, the one query with both texts as they came, the session
    closed, the metrics returned.  A refused text ends the route with its
    exception before a session exists. *)
Theorem date_range_metrics_run {FM : FloatMean}
  (start end_ : string) (w : world) :
  match validate_date (PyStr start), validate_date (PyStr end_) with
  | Ok start_date, Ok end_date =>
      datetime_gt start_date end_date = false ->
      exists m,
        fst (calculate_range_metrics start (Some end_) w) = Ok m
        /\ date_range_metrics start end_ w
           = (Ok m,
              mk_world (tables w)
                (journal w
                 ++ [SessionOpened;
                     Executed (SelectAll
                                 (filter_by
                                    (filter_by query_measurement
                                               (DateGe (BindStr start)))
                                    (DateLe (BindStr end_))));
                     SessionClosed]))
  | Raise e, _ => date_range_metrics start end_ w = (Raise e, w)
  | Ok _, Raise e => date_range_metrics start end_ w = (Raise e, w)
  end.
Proof.
  unfold date_range_metrics, bind, lift.
  destruct (validate_date (PyStr start)) as [ds|e]; [|reflexivity].
  destruct (validate_date (PyStr end_)) as [de|e]; [|reflexivity].
  intros ->.
  eexists. split; [apply calculate_range_metrics_run|].
  unfold Session, close, record, ret.
  rewrite calculate_range_metrics_full. simpl.
  now rewrite <- !app_assoc.
Qed.

Lemma date_range_metrics_run_witness :
  exists m,
    fst (calculate_range_metrics (FM := exact_mean) "2020-01-01"
           (Some "2020-01-02") (world_of sample_rows)) = Ok m
    /\ date_range_metrics (FM := exact_mean) "2020-01-01" "2020-01-02"
         (world_of sample_rows)
       = (Ok m,
          mk_world (tables (world_of sample_rows))
            (journal (world_of sample_rows)
             ++ [SessionOpened;
                 Executed (SelectAll
                             (filter_by
                                (filter_by query_measurement
                                           (DateGe (BindStr "2020-01-01")))
                                (DateLe (BindStr "2020-01-02"))));
                 SessionClosed])).
Proof.
  exact (date_range_metrics_run (FM := exact_mean) "2020-01-01" "2020-01-02"
           (world_of sample_rows) eq_refl).
Defined.

(** ** The window of [year_from_most_recent_data] *)

Lemma year_from_most_recent_data_ok_inv
  (st : option string) (w : world) (rows : list Measurement) :
  fst (year_from_most_recent_data st w) = Ok rows ->
  exists r0 nums d b,
    head (sort_desc_date (List.filter (of_station st) (tables w))) = Some r0
    /\ date_string_to_nums (date r0) = Ok nums
    /\ datetime_new nums = Ok d
    /\ sub_days d 365 = Ok b
    /\ rows = sort_desc_date
                (List.filter
                   (fun r => of_station st r && String.leb (datetime_text b) (date r))
                   (tables w)).
Proof.
  unfold year_from_most_recent_data, bind, first, lift, all. simpl.
  rewrite select_year_data.
  destruct (head _) as [r0|] eqn:Eh; simpl; [|discriminate].
  destruct (date_string_to_nums (date r0)) as [nums|e] eqn:En; simpl; [|discriminate].
  destruct (datetime_new nums) as [d|e] eqn:Ed; simpl; [|discriminate].
  destruct (sub_days d 365) as [b|e] eqn:Eb; simpl; [|discriminate].
  rewrite select_year_window. intros H. inversion H.
  exists r0, nums, d, b. repeat split; assumption.
Qed.

Lemma sub_days_raises (d : datetime) (n : Z) (e : exn) :
  sub_days d n = Raise e -> e = OverflowError.
Proof.
  unfold sub_days. destruct (between _ _ _).
  - destruct (ord2ymd _) as [[? ?] ?]. discriminate.
  - intros H. now inversion H.
Qed.

(** X13: [year_from_most_recent_data] fails in three ways only: with the
    [TypeError] of a missing newest record or of too many numbers in its
    date, with the [ValueError] of a date text that is not made of numbers
    or is not a date, and with the [OverflowError] of a number or a bound
    out of range. *)
Theorem year_from_most_recent_data_failures
  (st : option string) (w : world) (e : exn) :
  fst (year_from_most_recent_data st w) = Raise e ->
  e = TypeError \/ e = ValueError \/ e = OverflowError.
Proof.
  unfold year_from_most_recent_data, bind, first, lift, all. simpl.
  rewrite select_year_data.
  destruct (head _) as [r0|]; simpl; [|intros H; inversion H; auto].
  destruct (date_string_to_nums (date r0)) as [nums|e'] eqn:En; simpl.
  2:{ apply date_string_to_nums_raises in En. intros H. inversion H; subst. auto. }
  destruct (datetime_new nums) as [d|e'] eqn:Ed; simpl.
  2:{ apply datetime_new_raises in Ed. intros H. inversion H; subst. tauto. }
  destruct (sub_days d 365) as [b|e'] eqn:Eb; simpl; [discriminate|].
  apply sub_days_raises in Eb. intros H. inversion H; subst. auto.
Qed.

Lemma year_from_most_recent_data_failures_witness :
  TypeError = TypeError \/ TypeError = ValueError \/ TypeError = OverflowError.
Proof.
  apply (year_from_most_recent_data_failures None (world_of []) TypeError).
  reflexivity.
Defined.

#[local] Instance newer_or_same_trans : Transitive newer_or_same.
Proof. intros a b c Hab Hbc. unfold newer_or_same in *. eapply leb_trans; eassumption. Qed.

Lemma leb_false_flip (a b : string) :
  String.leb a b = false -> String.leb b a = true.
Proof.
  intros H. destruct (String.leb_total a b) as [E|E]; [congruence | exact E].
Qed.

Lemma insert_desc_sorted (r : Measurement) (l : list Measurement) :
  Sorted newer_or_same l -> Sorted newer_or_same (insert_desc r l).
Proof.
  induction l as [|x l IH]; intros Hs; simpl.
  - repeat constructor.
  - destruct (String.leb (date x) (date r)) eqn:E.
    + constructor; [exact Hs|]. constructor. exact E.
    + inversion Hs as [|? ? Hs' Hhd]; subst. constructor; [now apply IH|].
      destruct l as [|y l]; simpl.
      * constructor. now apply leb_false_flip.
      * destruct (String.leb (date y) (date r)).
        -- constructor. now apply leb_false_flip.
        -- inversion Hhd; subst. now constructor.
Qed.

Lemma sort_desc_date_sorted (l : list Measurement) :
  Sorted newer_or_same (sort_desc_date l).
Proof.
  induction l as [|x l IH]; simpl; [constructor | now apply insert_desc_sorted].
Qed.

(** X14: The rows [year_from_most_recent_data] returns are rows of the table,
    of the station asked for when there is one, and they come in
    descending order of their date texts. *)
Theorem year_window_is_sorted_part_of_table
  (st : option string) (w : world) (rows : list Measurement) :
  fst (year_from_most_recent_data st w) = Ok rows ->
  Sorted newer_or_same rows
  /\ forall r, In r rows -> In r (tables w) /\ of_station st r = true.
Proof.
  intros H.
  destruct (year_from_most_recent_data_ok_inv st w rows H)
    as (r0 & nums & d & b & _ & _ & _ & _ & ->).
  split; [apply sort_desc_date_sorted|].
  intros r Hr.
  rewrite <- list_elem_of_In, elem_of_sort_desc_date, list_elem_of_In in Hr.
  apply filter_In in Hr. destruct Hr as [Hin Hb].
  apply andb_prop in Hb. tauto.
Qed.

Lemma year_window_is_sorted_part_of_table_witness :
  Sorted newer_or_same
    [ mk_measurement "A" "2017-08-23" (Some (Qc_dec 5 1)) (Some (Qc_dec 75 1));
      mk_measurement "A" "2016-08-24" (Some (Qc_dec 3 1)) (Some (Qc_dec 73 1)) ]
  /\ forall r,
       In r [ mk_measurement "A" "2017-08-23" (Some (Qc_dec 5 1)) (Some (Qc_dec 75 1));
              mk_measurement "A" "2016-08-24" (Some (Qc_dec 3 1)) (Some (Qc_dec 73 1)) ]
       -> In r (tables (world_of window_rows)) /\ of_station (Some "A") r = true.
Proof.
  apply (year_window_is_sorted_part_of_table (Some "A") (world_of window_rows)).
  vm_compute. reflexivity.
Defined.

Lemma ymd2ord_bounds (y m dd : Z) :
  1 <= y <= 9999 -> 1 <= m <= 12 -> 1 <= dd <= days_in_month y m ->
  (y = 1 -> ymd2ord y m dd <= 365)
  /\ (2 <= y -> 366 <= ymd2ord y m dd <= 3652424).
Proof.
  intros Hy Hm. unfold ymd2ord, days_before_year, days_before_month, days_in_month.
  assert (Hleap1 : y = 1 -> is_leap y = false) by (intros ->; reflexivity).
  assert (Hcases : m = 1 \/ m = 2 \/ m = 3 \/ m = 4 \/ m = 5 \/ m = 6 \/ m = 7
                   \/ m = 8 \/ m = 9 \/ m = 10 \/ m = 11 \/ m = 12) by lia.
  destruct (is_leap y);
    repeat (destruct Hcases as [-> | Hcases]); try subst m; simpl; intros Hd;
    (split; [intros Hy1; try (specialize (Hleap1 Hy1); discriminate Hleap1);
             subst y; Z.to_euclidean_division_equations; lia
            | intros Hy2; Z.to_euclidean_division_equations; lia]).
Qed.

Lemma sub_days_365_ok (d : datetime) :
  1 <= year d <= 9999 -> 1 <= month d <= 12 ->
  1 <= day d <= days_in_month (year d) (month d) -> 2 <= year d ->
  exists b, sub_days d 365 = Ok b.
Proof.
  intros Hy Hm Hd Hy2. unfold sub_days, between.
  destruct (ymd2ord_bounds _ _ _ Hy Hm Hd) as [_ H]. specialize (H Hy2).
  replace ((1 <=? ymd2ord (year d) (month d) (day d) - 365)
           && (ymd2ord (year d) (month d) (day d) - 365 <=? 3652059))
    with true by lia.
  destruct (ord2ymd _) as [[? ?] ?]. eauto.
Qed.

Lemma sub_days_365_overflow (d : datetime) :
  1 <= month d <= 12 -> 1 <= day d <= days_in_month (year d) (month d) ->
  year d = 1 -> sub_days d 365 = Raise OverflowError.
Proof.
  intros Hm Hd Hy1. unfold sub_days, between.
  assert (Hy : 1 <= year d <= 9999) by lia.
  destruct (ymd2ord_bounds _ _ _ Hy Hm Hd) as [H _]. specialize (H Hy1).
  now replace ((1 <=? ymd2ord (year d) (month d) (day d) - 365)
               && (ymd2ord (year d) (month d) (day d) - 365 <=? 3652059))
    with false by lia.
Qed.

Lemma leb_refl (s : string) : String.leb s s = true.
Proof. destruct (String.leb_total s s); assumption. Qed.

Lemma sort_desc_date_head (l : list Measurement) (r0 : Measurement) :
  In r0 l ->
  exists r1,
    head (sort_desc_date l) = Some r1 /\ In r1 l
    /\ forall r, In r l -> String.leb (date r) (date r1) = true.
Proof.
  intros Hin.
  pose proof (sort_desc_date_sorted l) as Hs.
  apply Sorted_StronglySorted in Hs; [|apply newer_or_same_trans].
  assert (Hmem : forall r, In r (sort_desc_date l) <-> In r l)
    by (intros r; rewrite <- !list_elem_of_In; apply elem_of_sort_desc_date).
  destruct (sort_desc_date l) as [|r1 rest] eqn:E.
  - apply Hmem in Hin. inversion Hin.
  - exists r1. split; [reflexivity|]. split; [apply Hmem; now left|].
    intros r Hr. apply Hmem in Hr. destruct Hr as [<-|Hr]; [apply leb_refl|].
    inversion Hs as [|? ? _ Hall]; subst.
    rewrite List.Forall_forall in Hall. exact (Hall r Hr).
Qed.

(** The head of the sorted rows carries the date text of every newest
    record. *)
Lemma newest_is_head (st : option string) (w : world) (r0 : Measurement) :
  newest st w r0 ->
  exists r1,
    head (sort_desc_date (List.filter (of_station st) (tables w))) = Some r1
    /\ date r1 = date r0.
Proof.
  intros (Hin & Hst & Hmax).
  assert (Hin' : In r0 (List.filter (of_station st) (tables w)))
    by (apply filter_In; split; assumption).
  destruct (sort_desc_date_head _ r0 Hin') as (r1 & Hh & Hr1 & Hle).
  exists r1. split; [exact Hh|].
  apply filter_In in Hr1. destruct Hr1 as [Hr1 Hs1].
  apply String.leb_antisym; [now apply Hmax | now apply Hle].
Qed.

(** X15: When the newest record (of the station asked for) carries a date that
    [validate_date] accepts, in year 2 or later, the function returns: the
    bound is that date less 365 days, and the rows returned are exactly the
    rows of the table (and station) whose date text is at or above the text
    of the bound.  That text goes on with a time of day, so a row dated on
    the very day of the bound is not among them. *)
Theorem year_window_of_valid_newest
  (st : option string) (w : world) (r0 : Measurement) (d : datetime) :
  newest st w r0 ->
  validate_date (PyStr (date r0)) = Ok d ->
  2 <= year d ->
  exists b rows,
    sub_days d 365 = Ok b
    /\ fst (year_from_most_recent_data st w) = Ok rows
    /\ (forall r, In r rows
                  <-> In r (tables w) /\ of_station st r = true
                      /\ String.leb (datetime_text b) (date r) = true)
    /\ (forall r, In r rows ->
                  date r <> zpad 4 (year b) +:+ "-" +:+ zpad 2 (month b)
                            +:+ "-" +:+ zpad 2 (day b)).
Proof.
  intros Hnew Hval Hy2.
  destruct (newest_is_head st w r0 Hnew) as (r1 & Hhead & Hdate).
  destruct (validate_date_ok_inv _ _ Hval) as (_ & nums & Hnums & Hd).
  destruct (datetime_new_ok nums d Hd) as (_ & _ & Hy & Hm & Hday & _).
  destruct (sub_days_365_ok d Hy Hm Hday Hy2) as [b Hb].
  rewrite <- Hdate in Hnums.
  exists b. eexists. split; [exact Hb|].
  split; [eapply year_from_most_recent_data_run; eassumption|].
  assert (Hmem : forall r,
             In r (sort_desc_date
                     (List.filter
                        (fun r => of_station st r
                                  && String.leb (datetime_text b) (date r))
                        (tables w)))
             <-> In r (tables w) /\ of_station st r = true
                 /\ String.leb (datetime_text b) (date r) = true).
  { intros r. rewrite <- list_elem_of_In, elem_of_sort_desc_date, list_elem_of_In.
    rewrite filter_In, andb_true_iff. tauto. }
  split; [exact Hmem|].
  intros r Hr Hbound. apply Hmem in Hr. destruct Hr as (_ & _ & Hle).
  rewrite (bound_day_is_below_bound b r Hbound) in Hle. discriminate Hle.
Qed.

Lemma year_window_of_valid_newest_witness :
  exists b rows,
    sub_days (mk_datetime 2017 8 23 0 0 0 0) 365 = Ok b
    /\ fst (year_from_most_recent_data None (world_of window_rows)) = Ok rows
    /\ (forall r, In r rows
                  <-> In r (tables (world_of window_rows))
                      /\ of_station None r = true
                      /\ String.leb (datetime_text b) (date r) = true)
    /\ (forall r, In r rows ->
                  date r <> zpad 4 (year b) +:+ "-" +:+ zpad 2 (month b)
                            +:+ "-" +:+ zpad 2 (day b)).
Proof.
  apply (year_window_of_valid_newest None (world_of window_rows)
           (mk_measurement "A" "2017-08-23" (Some (Qc_dec 5 1)) (Some (Qc_dec 75 1)))
           (mk_datetime 2017 8 23 0 0 0 0)).
  - split; [simpl; tauto|]. split; [reflexivity|].
    intros r Hr _. simpl in Hr.
    destruct Hr as [<-|[<-|[<-|[<-|[<-|[<-|[]]]]]]]; reflexivity.
  - vm_compute. reflexivity.
  - simpl. lia.
Defined.

(** X16: A newest date in year 1 has no day 365 days before it: the function
    fails with the [OverflowError] of the subtraction. *)
Theorem year_window_of_year_one_overflows
  (st : option string) (w : world) (r0 : Measurement) (d : datetime) :
  newest st w r0 ->
  validate_date (PyStr (date r0)) = Ok d ->
  year d = 1 ->
  fst (year_from_most_recent_data st w) = Raise OverflowError.
Proof.
  intros Hnew Hval Hy1.
  destruct (newest_is_head st w r0 Hnew) as (r1 & Hhead & Hdate).
  destruct (validate_date_ok_inv _ _ Hval) as (_ & nums & Hnums & Hd).
  destruct (datetime_new_ok nums d Hd) as (_ & _ & Hy & Hm & Hday & _).
  pose proof (sub_days_365_overflow d Hm Hday Hy1) as Hb.
  rewrite <- Hdate in Hnums.
  unfold year_from_most_recent_data, bind, first, lift. simpl.
  rewrite select_year_data, Hhead. simpl. now rewrite Hnums, Hd, Hb.
Qed.

Lemma year_window_of_year_one_overflows_witness :
  fst (year_from_most_recent_data None
         (world_of [mk_measurement "A" "0001-06-01" None None]))
  = Raise OverflowError.
Proof.
  apply (year_window_of_year_one_overflows None
           (world_of [mk_measurement "A" "0001-06-01" None None])
           (mk_measurement "A" "0001-06-01" None None)
           (mk_datetime 1 6 1 0 0 0 0)).
  - split; [simpl; tauto|]. split; [reflexivity|].
    intros r Hr _. simpl in Hr. destruct Hr as [<-|[]]. reflexivity.
  - vm_compute. reflexivity.
  - reflexivity.
Defined.

(** ** Sessions: opened by the routes, closed only on the way out *)

Lemma only_executes_ret {A : Type} (a : A) : only_executes (ret a).
Proof. intros w. exists []. split; [now rewrite app_nil_r | constructor]. Qed.

Lemma only_executes_lift {A : Type} (o : outcome A) : only_executes (lift o).
Proof. intros w. exists []. split; [now rewrite app_nil_r | constructor]. Qed.

Lemma only_executes_bind {A B : Type} (m : py A) (k : A -> py B) :
  only_executes m -> (forall a, only_executes (k a)) -> only_executes (bind m k).
Proof.
  intros Hm Hk w. unfold bind. destruct (Hm w) as (e1 & He1 & Hf1).
  destruct (m w) as [[a|e] w1]; simpl in He1.
  - destruct (Hk a w1) as (e2 & He2 & Hf2). exists (e1 ++ e2)%list.
    split; [now rewrite He2, He1, app_assoc | now apply Forall_app].
  - now exists e1.
Qed.

Lemma only_executes_all (q : query) : only_executes (all q).
Proof. intros w. eexists. split; [reflexivity | repeat constructor]. Qed.

Lemma only_executes_first (q : query) : only_executes (first q).
Proof. intros w. eexists. split; [reflexivity | repeat constructor]. Qed.

Lemma only_executes_all_station_counts : only_executes all_station_counts.
Proof. intros w. eexists. split; [reflexivity | repeat constructor]. Qed.

Create HintDb executes.
#[local] Hint Resolve only_executes_ret only_executes_lift only_executes_all
  only_executes_first only_executes_all_station_counts : executes.

Ltac only_executes_steps :=
  repeat first
    [ apply only_executes_bind; [|intros ?]
    | solve [auto with executes] ].

Lemma only_executes_year_from_most_recent_data (st : option string) :
  only_executes (year_from_most_recent_data st).
Proof. unfold year_from_most_recent_data. only_executes_steps. Qed.

Lemma only_executes_most_active_station : only_executes most_active_station.
Proof. unfold most_active_station. only_executes_steps. Qed.

Lemma is_executed_not_closed (evs : list event) :
  Forall is_executed evs -> ~ In SessionClosed evs.
Proof.
  intros H Hin. rewrite List.Forall_forall in H. exact (H _ Hin).
Qed.

(** X17: The two data routes open a session before anything else.  When they
    return, closing it was the last thing they did; when the helper they
    call fails, the session they opened is never closed. *)
Theorem data_routes_session_discipline :
  session_discipline precipitation_vals
  /\ session_discipline most_active_year_data.
Proof.
  split; intros w.
  - unfold precipitation_vals, bind, Session, close, record, ret. simpl.
    set (w1 := mk_world (tables w) (journal w ++ [SessionOpened])).
    destruct (only_executes_year_from_most_recent_data None w1) as (evs & He & Hf).
    destruct (year_from_most_recent_data None w1) as [[rows|e] w2];
      simpl in *.
    + exists (evs ++ [SessionClosed])%list. split.
      * rewrite He. unfold w1. simpl. now rewrite <- !app_assoc.
      * now exists evs.
    + exists evs. split; [|exact Hf].
      rewrite He. unfold w1. simpl. now rewrite <- !app_assoc.
  - unfold most_active_year_data, bind, Session, close, record, ret. simpl.
    set (w1 := mk_world (tables w) (journal w ++ [SessionOpened])).
    destruct (only_executes_most_active_station w1) as (e1 & He1 & Hf1).
    destruct (most_active_station w1) as [[s|e] w2]; simpl in *.
    + destruct (only_executes_year_from_most_recent_data (Some s) w2)
        as (e2 & He2 & Hf2).
      destruct (year_from_most_recent_data (Some s) w2) as [[rows|e] w3];
        simpl in *.
      * exists ((e1 ++ e2) ++ [SessionClosed])%list. split.
        -- rewrite He2, He1. unfold w1. simpl. now rewrite <- !app_assoc.
        -- exists (e1 ++ e2)%list. split; [reflexivity | now apply Forall_app].
      * exists (e1 ++ e2)%list. split; [|now apply Forall_app].
        rewrite He2, He1. unfold w1. simpl. now rewrite <- !app_assoc.
    + exists e1. split; [|exact Hf1].
      rewrite He1. unfold w1. simpl. now rewrite <- !app_assoc.
Qed.

(** ** The temperature route *)

Lemma temperature_dict_snoc (rows : list Measurement) (r : Measurement) :
  temperature_dict (rows ++ [r]) = <[date r := tobs r]> (temperature_dict rows).
Proof. unfold temperature_dict. now rewrite foldl_snoc. Qed.

Lemma temperature_dict_lookup (rows : list Measurement) (d : string) :
  temperature_dict rows !! d = last (omap (tobs_on d) rows).
Proof.
  induction rows as [|r rows IH] using rev_ind; [reflexivity|].
  rewrite temperature_dict_snoc, omap_app. simpl. unfold tobs_on at 2.
  destruct (String.eqb_spec (date r) d) as [Hd|Hd]; simpl.
  - rewrite last_snoc. subst d. apply lookup_insert_eq.
  - rewrite app_nil_r, lookup_insert_ne by exact Hd. exact IH.
Qed.

Lemma temperature_dict_dom (rows : list Measurement) (d : string) :
  d ∈ dom (temperature_dict rows) <-> exists r, In r rows /\ date r = d.
Proof.
  rewrite elem_of_dom, temperature_dict_lookup, last_is_Some. split.
  - intros Hne. destruct (omap (tobs_on d) rows) as [|p l] eqn:E; [congruence|].
    assert (Hp : p ∈ omap (tobs_on d) rows) by (rewrite E; left).
    apply list_elem_of_omap in Hp. destruct Hp as (r & Hr & Hp).
    unfold tobs_on in Hp. destruct (String.eqb_spec (date r) d); [|discriminate].
    exists r. split; [now apply list_elem_of_In | assumption].
  - intros (r & Hr & Hd) E.
    assert (Hin : tobs r ∈ omap (tobs_on d) rows).
    { apply list_elem_of_omap. exists r. split; [now apply list_elem_of_In|].
      unfold tobs_on. now rewrite Hd, String.eqb_refl. }
    rewrite E in Hin. inversion Hin.
Qed.

(** X18: [most_active_year_data] on a table with records: the station it picks
    has records, so the window it asks for has a newest record to start
    from; when the window comes back, the mapping returned has the dates
    of the window as keys, each with the temperature, null or not, of the
    last window row of that date, and all those rows are of the station
    picked.  When the window fails the route fails the same way. *)
Theorem most_active_year_data_run (w : world) :
  tables w <> [] ->
  exists s,
    fst (most_active_station w) = Ok s
    /\ List.filter (of_station (Some s)) (tables w) <> []
    /\ match fst (year_from_most_recent_data (Some s) w) with
       | Ok rows =>
           exists m : gmap string (option Qc),
             fst (most_active_year_data w) = Ok m
             /\ (forall d, m !! d = last (omap (tobs_on d) rows))
             /\ (forall d, d ∈ dom m <-> exists r, In r rows /\ date r = d)
             /\ (forall r, In r rows -> station r = s)
       | Raise e => fst (most_active_year_data w) = Raise e
       end.
Proof.
  intros Hne.
  destruct (stations_by_count_head (tables w) Hne)
    as (s & n & rest & Hcount & _ & (r & Hr & Hrs) & _).
  assert (Hs : fst (most_active_station w) = Ok s).
  { unfold most_active_station, bind, all_station_counts, lift, ret. simpl.
    now rewrite Hcount. }
  exists s. split; [exact Hs|]. split.
  { intros E.
    assert (Hin : In r (List.filter (of_station (Some s)) (tables w))).
    { apply filter_In. split; [now apply list_elem_of_In|].
      simpl. now apply String.eqb_eq. }
    rewrite E in Hin. inversion Hin. }
  set (w1 := mk_world (tables w) (journal w ++ [SessionOpened])).
  assert (Hs1 : fst (most_active_station w1) = Ok s).
  { rewrite <- Hs. now apply reads_only_most_active_station. }
  destruct (reads_only_most_active_station w1) as [Ht1 _].
  assert (Hrun : most_active_year_data w
                 = match most_active_station w1 with
                   | (Ok s', w2) =>
                       match year_from_most_recent_data (Some s') w2 with
                       | (Ok rows, w3) =>
                           (Ok (temperature_dict rows),
                            mk_world (tables w3) (journal w3 ++ [SessionClosed]))
                       | (Raise e, w3) => (Raise e, w3)
                       end
                   | (Raise e, w2) => (Raise e, w2)
                   end).
  { unfold most_active_year_data, bind, Session, close, record, ret. simpl.
    fold w1. destruct (most_active_station w1) as [[s'|e] w2]; [|reflexivity].
    destruct (year_from_most_recent_data (Some s') w2) as [[rows|e] w3];
      reflexivity. }
  rewrite Hrun. destruct (most_active_station w1) as [[s'|e] w2];
    simpl in Hs1, Ht1; [|discriminate].
  inversion Hs1; subst s'.
  assert (Hsame : fst (year_from_most_recent_data (Some s) w2)
                  = fst (year_from_most_recent_data (Some s) w))
    by (apply reads_only_year_from_most_recent_data; exact Ht1).
  rewrite <- Hsame.
  destruct (year_from_most_recent_data (Some s) w2) as [[rows|e] w3] eqn:Ew;
    simpl; [|reflexivity].
  exists (temperature_dict rows). split; [reflexivity|].
  split; [apply temperature_dict_lookup|].
  split; [apply temperature_dict_dom|].
  intros r' Hr'.
  assert (Hok : fst (year_from_most_recent_data (Some s) w2) = Ok rows)
    by now rewrite Ew.
  destruct (year_from_most_recent_data_ok_inv _ _ _ Hok)
    as (r0 & nums & d0 & b & _ & _ & _ & _ & Hrows).
  rewrite Hrows in Hr'.
  rewrite <- list_elem_of_In, elem_of_sort_desc_date, list_elem_of_In in Hr'.
  apply filter_In in Hr'. destruct Hr' as [_ Hb].
  apply andb_prop in Hb. destruct Hb as [Hst _].
  simpl in Hst. now apply String.eqb_eq.
Qed.

Lemma most_active_year_data_run_witness :
  exists s,
    fst (most_active_station (world_of window_rows)) = Ok s
    /\ List.filter (of_station (Some s)) (tables (world_of window_rows)) <> []
    /\ match fst (year_from_most_recent_data (Some s) (world_of window_rows)) with
       | Ok rows =>
           exists m : gmap string (option Qc),
             fst (most_active_year_data (world_of window_rows)) = Ok m
             /\ (forall d, m !! d = last (omap (tobs_on d) rows))
             /\ (forall d, d ∈ dom m <-> exists r, In r rows /\ date r = d)
             /\ (forall r, In r rows -> station r = s)
       | Raise e => fst (most_active_year_data (world_of window_rows)) = Raise e
       end.
Proof.
  apply (most_active_year_data_run (world_of window_rows)).
  vm_compute. discriminate.
Defined.
